(** * docstring-ai: the incremental-state and batching pipeline

    A shallow embedding of [docstring_ai/__main__.py],
    [docstring_ai/lib/process.py] and the call interface of
    [docstring_ai/lib/github_utils.py], with the properties of the design
    document stated over it.

    Python values are modelled as follows: [str] as the [string] of its
    UTF-8 bytes ([len] counts the code points, [Py.len]), [list] as
    [list], the cache
    [dict] as a [gmap string string], the ordered [folder_dict] as an
    association list in insertion order, [int] as [Z] or [nat], exceptions
    as an explicit outcome. The mutable objects shared between the
    functions (the cache, the context summary, the file system and the
    log) live in one [world] record that every function threads through. *)

From stdpp Require Import gmap strings list sorting.
From Stdlib Require Import ZArith Lia Ascii.

Local Open Scope string_scope.
Local Open Scope list_scope.
Local Open Scope nat_scope.

(** ** Python basics *)

(** The exceptions the modelled code can let escape. *)
Inductive pyexn :=
| TypeError (msg : string)
| IndexError (msg : string)
| OSError (path : string).

(** How a call ends: it returns, the interpreter exits with a status, or
    an exception propagates. *)
Inductive outcome :=
| Returned
| Exited (status : Z)
| Raised (e : pyexn).

Module Py.

(** [s.startswith(p)]. *)
Definition startswith (s p : string) : bool := String.prefix p s.

(** Truth value of a [str]: the empty string is falsy. *)
Definition truthy (s : string) : bool :=
  match s with EmptyString => false | String _ _ => true end.

(** Truth value of an optional [str] ([None] is falsy). *)
Definition truthy_opt (o : option string) : bool :=
  match o with None => false | Some s => truthy s end.

(** [a or b] on optional strings. *)
Definition or_else (a b : option string) : option string :=
  if truthy_opt a then a else b.

(** [s.replace(old, new)] for a non-empty [old]: left to right, without
    overlap. [skip] counts the characters of a match still to drop. *)
Fixpoint replace_from (old new : string) (skip : nat) (s : string) : string :=
  match s with
  | EmptyString => EmptyString
  | String c rest =>
      match skip with
      | S k => replace_from old new k rest
      | O =>
          if String.prefix old s
          then new +:+ replace_from old new (String.length old - 1) rest
          else String c (replace_from old new 0 rest)
      end
  end.

Definition replace (old new s : string) : string := replace_from old new 0 s.

(** A byte between [lo] and [hi]. *)
Definition byte_in (lo hi : nat) (c : ascii) : bool :=
  let n := nat_of_ascii c in Nat.leb lo n && Nat.leb n hi.

(** A continuation byte of UTF-8: 0x80 to 0xBF. *)
Definition continuation (c : ascii) : bool := byte_in 128 191 c.

(** The first two bytes of a sequence of three and of a sequence of four
    bytes: no overlong form, no surrogate, nothing beyond U+10FFFF. *)
Definition lead3 (c0 c1 : ascii) : bool :=
  (byte_in 224 224 c0 && byte_in 160 191 c1)
  || (byte_in 225 236 c0 && byte_in 128 191 c1)
  || (byte_in 237 237 c0 && byte_in 128 159 c1)
  || (byte_in 238 239 c0 && byte_in 128 191 c1).

Definition lead4 (c0 c1 : ascii) : bool :=
  (byte_in 240 240 c0 && byte_in 144 191 c1)
  || (byte_in 241 243 c0 && byte_in 128 191 c1)
  || (byte_in 244 244 c0 && byte_in 128 143 c1).

(** The byte strings that [bytes.decode('utf-8')] accepts: well-formed
    UTF-8. *)
Fixpoint utf8_valid (s : string) : bool :=
  match s with
  | EmptyString => true
  | String c0 rest =>
      if byte_in 0 127 c0 then utf8_valid rest
      else
        match rest with
        | EmptyString => false
        | String c1 rest1 =>
            if byte_in 194 223 c0 then continuation c1 && utf8_valid rest1
            else
              match rest1 with
              | EmptyString => false
              | String c2 rest2 =>
                  if lead3 c0 c1 then continuation c2 && utf8_valid rest2
                  else
                    match rest2 with
                    | EmptyString => false
                    | String c3 rest3 =>
                        lead4 c0 c1 && continuation c2 && continuation c3
                        && utf8_valid rest3
                    end
              end
        end
  end.

(** Reading in text mode: ["\r\n"] and ["\r"] become ["\n"]. *)
Fixpoint universal_newlines (s : string) : string :=
  match s with
  | EmptyString => EmptyString
  | String c rest =>
      if Ascii.eqb c (ascii_of_nat 13) then
        match rest with
        | String c' rest' =>
            if Ascii.eqb c' (ascii_of_nat 10)
            then String (ascii_of_nat 10) (universal_newlines rest')
            else String (ascii_of_nat 10) (universal_newlines rest)
        | EmptyString => String (ascii_of_nat 10) EmptyString
        end
      else String c (universal_newlines rest)
  end.

(** [open(path, 'r', encoding='utf-8').read()] on a file that holds
    [bytes]: [None] when the bytes do not decode. *)
Definition decode (bytes : string) : option string :=
  if utf8_valid bytes then Some (universal_newlines bytes) else None.

(** [len(s)]: the number of code points, that is of the bytes that are
    not continuation bytes. *)
Fixpoint len (s : string) : nat :=
  match s with
  | EmptyString => 0
  | String c rest => (if continuation c then 0 else 1) + len rest
  end.

(** A call that passes keyword arguments to a function whose parameters
    are all required: [unsupplied name o] is the name of a parameter the
    call does not pass. *)
Definition unsupplied {A} (name : string) (o : option A) : option string :=
  match o with Some _ => None | None => Some name end.

Fixpoint quoted_names (names : list string) : string :=
  match names with
  | [] => ""
  | [name] => "'" +:+ name +:+ "'"
  | name :: rest => "'" +:+ name +:+ "', " +:+ quoted_names rest
  end.

(** The [TypeError] raised while the arguments are bound, before the body
    of the function runs. *)
Definition missing_arguments (fname : string) (missing : list string) : pyexn :=
  match missing with
  | [name] =>
      TypeError (fname +:+ "() missing 1 required positional argument: '"
                 +:+ name +:+ "'")
  | _ =>
      TypeError (fname +:+ "() missing required positional arguments: "
                 +:+ quoted_names missing)
  end.

End Py.

(** ** POSIX paths

    [pathlib] and [os.path] are library code; the pipeline only needs
    [str(Path(s))] and [os.path.relpath]. The general results take them
    from the environment; the functions below are the POSIX behaviour on
    which the examples are evaluated. *)
Module Posix.

Definition slash : Ascii.ascii := "/"%char.

(** Split at every ["/"]; [cur] is the component read so far. *)
Fixpoint split_from (cur s : string) : list string :=
  match s with
  | EmptyString => [cur]
  | String c rest =>
      if Ascii.eqb c slash then cur :: split_from "" rest
      else split_from (cur +:+ String c "") rest
  end.

Definition split (s : string) : list string := split_from "" s.

Fixpoint join_slash (parts : list string) : string :=
  match parts with
  | [] => ""
  | [p] => p
  | p :: rest => p +:+ "/" +:+ join_slash rest
  end.

(** The components [pathlib] keeps: empty ones and ["."] are dropped. *)
Definition kept (p : string) : bool :=
  negb (String.eqb p "" || String.eqb p ".").

Definition parts (s : string) : list string := List.filter kept (split s).

Fixpoint leading_slashes (s : string) : nat :=
  match s with
  | String c rest => if Ascii.eqb c slash then S (leading_slashes rest) else 0
  | EmptyString => 0
  end.

(** The root of a path: none, ["/"], or ["//"] for exactly two slashes. *)
Definition root (s : string) : string :=
  match leading_slashes s with
  | 0 => ""
  | 2 => "//"
  | _ => "/"
  end.

(** [str(PurePosixPath(s))]. *)
Definition Path_str (s : string) : string :=
  let body := join_slash (parts s) in
  match root s, body with
  | EmptyString, EmptyString => "."
  | r, _ => r +:+ body
  end.

Fixpoint strip_common (a b : list string) : list string * list string :=
  match a, b with
  | x :: a', y :: b' =>
      if String.eqb x y then strip_common a' b' else (a, b)
  | _, _ => (a, b)
  end.

(** [os.path.relpath(path, start)] for two paths given relative to the
    same directory and free of [".."]. *)
Definition relpath (path start : string) : string :=
  let '(rest, up) := strip_common (parts path) (parts start) in
  match (List.map (λ _, "..") up ++ rest)%list with
  | [] => "."
  | l => join_slash l
  end.

(** [os.path.join(a, b)] for a relative [b]. *)
Definition path_join (a b : string) : string :=
  match a with
  | EmptyString => b
  | _ => if String.prefix "/" (String.rev a) then a +:+ b else a +:+ "/" +:+ b
  end.

(** The index of the last ["."] of a name. *)
Fixpoint rfind_dot (name : string) : option nat :=
  match name with
  | EmptyString => None
  | String c rest =>
      match rfind_dot rest with
      | Some i => Some (S i)
      | None => if Ascii.eqb c "."%char then Some 0 else None
      end
  end.

(** The name without its suffix: the suffix starts at the last ["."],
    unless that is the first or the last character of the name. *)
Definition stem (name : string) : string :=
  match rfind_dot name with
  | Some i =>
      if Nat.ltb 0 i && Nat.ltb i (String.length name - 1)
      then String.substring 0 i name else name
  | None => name
  end.

(** [str(PurePosixPath(s).with_suffix(suffix))] for a path with a name. *)
Definition with_suffix (s suffix : string) : string :=
  match reverse (parts s) with
  | [] => Path_str s
  | name :: dirs => root s +:+ join_slash (reverse dirs ++ [stem name +:+ suffix])
  end.

(** A component holds no ["/"]. *)
Fixpoint no_slash (s : string) : bool :=
  match s with
  | EmptyString => true
  | String c rest => negb (Ascii.eqb c slash) && no_slash rest
  end.

(** What [pathlib] keeps of a path: its root and its components. *)
Definition component (p : string) : bool := no_slash p && kept p.

End Posix.

(** ** The folder batches

    [folder_dict] maps a depth to the folders recorded at that depth, in
    insertion order. *)
Definition folder_dict := list (nat * list string).

(** A batch: its depth, its folder and the files assigned to it. *)
Record batch := Batch {
  batch_depth : nat;
  batch_folder : string;
  batch_files : list string;
}.

Section Assignment.

(** [str(Path(_))], from [pathlib]. *)
Variable Path_str : string → string.

(** The test of the assignment loop:
    [files_to_describe[0].startswith(str(Path(folder))) or depth == 0]. *)
Definition claims (depth : nat) (folder file : string) : bool :=
  Py.startswith file (Path_str folder) || Nat.eqb depth 0.

(** The [while i < length] loop of [process_files_and_create_prs], with
    [n] iterations left. Every iteration looks at the head of the queue,
    [files_to_describe[0]]: a matching head is popped and appended to
    the batch, any other head stays where it is. Indexing an empty queue
    raises [IndexError]. *)
Fixpoint assign_loop (n depth : nat) (folder : string)
    (files_to_describe python_files_to_process : list string)
  : pyexn + (list string * list string) :=
  match n with
  | O => inr (files_to_describe, python_files_to_process)
  | S n' =>
      match files_to_describe with
      | [] => inl (IndexError "list index out of range")
      | f :: rest =>
          if claims depth folder f
          then assign_loop n' depth folder rest (python_files_to_process ++ [f])
          else assign_loop n' depth folder files_to_describe python_files_to_process
      end
  end.

(** The leading files of a queue that the folder claims, and the files
    behind them: what the loop turns out to compute. *)
Fixpoint leading (depth : nat) (folder : string) (queue : list string) : list string :=
  match queue with
  | f :: rest => if claims depth folder f then f :: leading depth folder rest else []
  | [] => []
  end.

Fixpoint behind (depth : nat) (folder : string) (queue : list string) : list string :=
  match queue with
  | f :: rest => if claims depth folder f then behind depth folder rest else queue
  | [] => []
  end.

(** One folder: [length = len(files_to_describe)] iterations starting
    from an empty batch. *)
Definition assign_folder (depth : nat) (folder : string) (queue : list string)
  : pyexn + (list string * list string) :=
  assign_loop (length queue) depth folder queue [].

(** The order in which the folders are visited:
    [for depth, folders in reversed(folder_dict.items()): for folder in folders]. *)
Definition dispatch_order (fd : folder_dict) : list (nat * string) :=
  flat_map (λ '(depth, folders), List.map (pair depth) folders) (reverse fd).

(** The depths of a visit. *)
Definition depths (order : list (nat * string)) : list nat := List.map fst order.

(** The batches of a run, in the order of the visit, the empty ones
    included, and the files left in the queue at the end. *)
Fixpoint assign_all (order : list (nat * string)) (queue : list string)
  : pyexn + (list batch * list string) :=
  match order with
  | [] => inr ([], queue)
  | (depth, folder) :: order' =>
      match assign_folder depth folder queue with
      | inl e => inl e
      | inr (queue', taken) =>
          match assign_all order' queue' with
          | inl e => inl e
          | inr (bs, final) => inr (Batch depth folder taken :: bs, final)
          end
      end
  end.

Definition assign_batches (fd : folder_dict) (files : list string)
  : pyexn + (list batch * list string) :=
  assign_all (dispatch_order fd) files.

(** The batches that are processed: a folder whose batch is empty is
    skipped ([continue]). *)
Definition nonempty (b : batch) : bool :=
  match batch_files b with [] => false | _ => true end.

Definition processed (bs : list batch) : list batch := List.filter nonempty bs.

(** The files of the batches, in the order of the visit. *)
Definition assigned (bs : list batch) : list string :=
  concat (List.map batch_files bs).

(** *** The assignment the design document asks for

    Follows the document (section 4.3), not the code: for each batch,
    in the same order, collect every not yet claimed file that lies
    under the folder (every remaining file for a depth-0 batch),
    keeping the relative order, and mark those files claimed. *)
Fixpoint stable_partition_spec (order : list (nat * string)) (unclaimed : list string)
  : list batch * list string :=
  match order with
  | [] => ([], unclaimed)
  | (depth, folder) :: order' =>
      let mine := List.filter (claims depth folder) unclaimed in
      let others := List.filter (λ f, negb (claims depth folder f)) unclaimed in
      let '(bs, final) := stable_partition_spec order' others in
      (Batch depth folder mine :: bs, final)
  end.

End Assignment.

(** ** Directory walk

    [traverse_repo] belongs to [docstring_ai/lib/utils.py]; the pipeline
    takes it from the environment. This module gives it the behaviour the
    design document describes. *)
Module Traverse.

Local Unset Elimination Schemes.
Inductive dirtree := Dir (name : string) (subdirs : list dirtree).
Local Set Elimination Schemes.

Definition dir_name (t : dirtree) : string :=
  match t with Dir name _ => name end.

(** Top-down walk: a directory, then each of its subdirectories in turn. *)
Fixpoint walk (depth : nat) (path : string) (t : dirtree) : list (nat * string) :=
  match t with
  | Dir _ subdirs =>
      (depth, path)
        :: flat_map (λ s, walk (S depth) (Posix.path_join path (dir_name s)) s) subdirs
  end.

(** [folder_dict.setdefault(depth, []).append(folder)]: a new depth is
    inserted after the existing ones. *)
Fixpoint setdefault_append (d : folder_dict) (depth : nat) (folder : string)
  : folder_dict :=
  match d with
  | [] => [(depth, [folder])]
  | (k, folders) :: d' =>
      if Nat.eqb k depth then (k, folders ++ [folder]) :: d'
      else (k, folders) :: setdefault_append d' depth folder
  end.

Definition record (pr_depth : nat) (d : folder_dict) (visit : nat * string)
  : folder_dict :=
  if Nat.leb (fst visit) pr_depth then setdefault_append d (fst visit) (snd visit)
  else d.

(** Modelled from the spec: [traverse_repo] of [docstring_ai/lib/utils.py]
    is missing from the sources. Section 4.3 of the design document: walk
    the directory tree under the root, the depth of a directory being the
    number of path segments below the root; a directory of depth at most
    [pr_depth] is recorded under its depth; the root is always recorded,
    at depth 0. *)
Definition traverse_repo (tree : dirtree) (repo_path : string) (pr_depth : nat)
  : folder_dict :=
  fold_left (record pr_depth) (walk 0 repo_path tree) [].

(** The depths recorded in a dictionary, in insertion order. *)
Definition keys (d : folder_dict) : list nat := List.map fst d.

(** In a top-down walk a directory of depth [S k] comes after one of
    depth [k]: [seen] holds the depths met so far. *)
Fixpoint parents_first (seen depths : list nat) : Prop :=
  match depths with
  | [] => True
  | d :: rest => (∀ k, d = S k → k ∈ seen) ∧ parents_first (d :: seen) rest
  end.

End Traverse.

(** ** The shared state and the collaborators *)

(** An entry of the context summary: [{"file": ..., "description": ...}]. *)
Record entry := Entry {
  entry_file : string;
  entry_description : string;
}.

Inductive level := DEBUG | INFO | WARNING | ERROR.

(** What a run does to the outside, in the order it happens. *)
Inductive event :=
| Log (lvl : level) (msg : string)
| Print (msg : string)
| Asked (question : string) (answer : string)
| BackedUp (path : string)
| Wrote (path content : string)
| Removed (path : string)
| Described (path : string)
| Annotated (path : string)
| Embedded (paths : list string)
| SavedContext (entries : list entry)
| SavedCache (hashes : gmap string string)
| PullRequest (branch : string) (created : bool).

(** The objects the functions share and mutate: the files on disk, the
    in-memory cache [dict], the in-memory context summary [list], and the
    trace of what was done. *)
Record world := World {
  fs : gmap string string;
  cache : gmap string string;
  context_summary : list entry;
  trace : list event;
}.

Definition emit (e : event) (w : world) : world :=
  World (fs w) (cache w) (context_summary w) (trace w ++ [e]).

Definition log (lvl : level) (msg : string) (w : world) : world :=
  emit (Log lvl msg) w.

Definition add_trace (events : list event) (w : world) : world :=
  World (fs w) (cache w) (context_summary w) (trace w ++ events).

Definition set_cache (k v : string) (w : world) : world :=
  World (fs w) (<[k := v]> (cache w)) (context_summary w) (trace w).

Definition append_context (e : entry) (w : world) : world :=
  World (fs w) (cache w) (context_summary w ++ [e]) (trace w).

Definition write_file (path content : string) (w : world) : world :=
  World (<[path := content]> (fs w)) (cache w) (context_summary w)
        (trace w ++ [Wrote path content]).

(** The text of a file, as [open(path, 'r', encoding='utf-8')] reads it:
    [None] when the file cannot be opened or does not decode. [fs] holds
    the bytes of the files, which is what the hash is taken of; a text
    is written as its bytes. *)
Definition read_text (w : world) (path : string) : option string :=
  fs w !! path ≫= Py.decode.

(** The events that touch the repository, the hosting service or the
    user. *)
Definition is_write (e : event) : bool :=
  match e with Wrote _ _ | BackedUp _ => true | _ => false end.

Definition is_pull_request (e : event) : bool :=
  match e with PullRequest _ _ => true | _ => false end.

Definition is_question (e : event) : bool :=
  match e with Asked _ _ => true | _ => false end.

Definition is_log (e : event) : bool :=
  match e with Log _ _ => true | _ => false end.

Definition is_annotation (e : event) : bool :=
  match e with Annotated _ | Described _ => true | _ => false end.

(** What the assistant does with a file: the call raises, it ends without
    calling [write_file_with_new_docstring], or it calls it with the new
    content. *)
Inductive proposal :=
| AssistantRaises
| NoProposal
| Proposes (new_file_content : string).

(** How [with open(path, 'w') as f: f.write(content)] ends: the content is
    written; [open] raises and the file is as it was; or [open] empties
    the file and the write raises, leaving [remains] in it. *)
Inductive write_result :=
| Written
| OpenFails
| WriteFails (remains : string).

(** The arguments of [create_github_pr] once bound. *)
Record pr_args := PrArgs {
  pr_repo_path : string;
  pr_github_token : string;
  pr_github_repo : string;
  pr_branch_name : string;
  pr_folder : string;
  pr_title : string;
  pr_target_branch : string;
}.

(** The collaborators and constants the pipeline relies on: the standard
    library ([pathlib], [os.path], [hashlib]), the configuration, the
    helpers of [lib/utils.py] and [lib/prompt_utils.py], the assistant,
    the user and the hosting service. A function that can raise returns
    an [option]: [None] when it raises, [Some] of the value it returns
    otherwise ([Some tt] when that value is not used). *)
Record Env := {
  Path_str : string → string;
  relpath : string → string → string;
  sha256 : string → string;
  getenv : string → option string;
  path_exists : string → bool;
  now_stamp : string;
  MAX_TOKENS : Z;
  CACHE_FILE_NAME : string;
  CONTEXT_SUMMARY_PATH : string;
  check_git_repo : string → bool;
  git_remote : string → option (string * string);
  traverse_repo : string → Z → folder_dict;
  assistant_ready : bool;
  python_files_sorted : string → list string;
  description_file_path : string → string;
  generate_file_description : string → option string;
  imported_classes : string → list string;
  construct_few_shot_prompt : list string → Z → string → string;
  create_file_with_docstring : string → string → proposal;
  ensure_docstring_header : string → option string;
  create_backup : string → option unit;
  file_write : string → string → write_result;
  os_remove : string → option unit;
  user_input : string → string;
  prompt_user_confirmation : string → bool;
  upload_files_to_openai : list string → list string;
  create_github_pr : pr_args → bool;
}.

Section Pipeline.

Variable E : Env.

(** [compute_sha256(path)]: the digest of the content on disk; raises
    when the file cannot be read. *)
Definition compute_sha256 (w : world) (path : string) : option string :=
  sha256 E <$> fs w !! path.

(** *** [filter_files_by_hash] *)

(** One iteration of the loop: [changed_files] and the world so far. *)
Definition hash_step (repo_path : string) (cache : gmap string string)
    (st : list string * world) (file_path : string) : list string * world :=
  let '(changed_files, w) := st in
  match compute_sha256 w file_path with
  | Some current_hash =>
      let relative_path := relpath E file_path repo_path in
      let cached_hash := cache !! relative_path in
      if bool_decide (Some current_hash ≠ cached_hash)
      then (changed_files ++ [file_path], w)
      else (changed_files, w)
  | None =>
      (changed_files, log ERROR ("Error verifying hash for " +:+ file_path) w)
  end.

Definition filter_files_by_hash (file_paths : list string) (repo_path : string)
    (cache : gmap string string) (w : world) : list string * world :=
  let w := log INFO "Starting file hash verification..." w in
  let '(changed_files, w) :=
    fold_left (hash_step repo_path cache) file_paths ([], w) in
  (changed_files, log INFO "Hash verification completed." w).

(** A file counts as changed when its current hash differs from the hash
    cached for its relative path or when the cache has no hash for it (the
    wording of the design document, section 4.1); a file that cannot be
    read does not count. *)
Definition hash_changed (repo_path : string) (cache : gmap string string)
    (w : world) (file_path : string) : bool :=
  match compute_sha256 w file_path with
  | Some current_hash =>
      match cache !! relpath E file_path repo_path with
      | Some cached_hash => negb (String.eqb current_hash cached_hash)
      | None => true
      end
  | None => false
  end.

(** A file is up to date when it can be read and its current hash is the
    hash cached for its relative path. *)
Definition up_to_date (repo_path : string) (w : world) (file_path : string) : bool :=
  match compute_sha256 w file_path, cache w !! relpath E file_path repo_path with
  | Some current_hash, Some cached_hash => String.eqb current_hash cached_hash
  | _, _ => false
  end.

(** The error lines for the files that cannot be read. *)
Definition unreadable_log (w : world) (file_paths : list string) : list event :=
  omap (λ file_path,
          match compute_sha256 w file_path with
          | Some _ => None
          | None => Some (Log ERROR ("Error verifying hash for " +:+ file_path))
          end) file_paths.

(** *** [process_file_descriptions] *)

(** [any(str(Path(entry["file"])) == relative_path for entry in context_summary)]. *)
Definition has_entry (relative_path : string) (summary : list entry) : bool :=
  existsb (λ e, String.eqb (Path_str E (entry_file e)) relative_path) summary.

(** The normalized paths of the entries of a context summary. *)
Definition summary_paths (summary : list entry) : list string :=
  List.map (λ e, Path_str E (entry_file e)) summary.

(** One iteration: the description files written so far and the world. *)
Definition describe_step (repo_path : string) (st : list string * world)
    (file : string) : list string * world :=
  let '(file_descriptions_list, w) := st in
  let relative_path := Path_str E (relpath E file repo_path) in
  if has_entry relative_path (context_summary w) then st
  else
    let failed := log ERROR ("Failed to generate description for " +:+ file) in
    match read_text w file with
    | None => (file_descriptions_list, failed w)
    | Some file_content =>
        let w := emit (Described file) w in
        match generate_file_description E file_content with
        | None => (file_descriptions_list, failed w)
        | Some file_description =>
            let path := description_file_path E file in
            match file_write E path file_description with
            | Written =>
                let w := write_file path file_description w in
                (file_descriptions_list ++ [path],
                 append_context (Entry relative_path file_description) w)
            | OpenFails => (file_descriptions_list, failed w)
            | WriteFails remains =>
                (file_descriptions_list, failed (write_file path remains w))
            end
        end
    end.

Definition process_file_descriptions (files_to_process : list string)
    (repo_path : string) (w : world) : list string * world :=
  let '(file_descriptions_list, w) :=
    fold_left (describe_step repo_path) files_to_process ([], w) in
  match file_descriptions_list with
  | [] => ([], w)
  | _ =>
      (upload_files_to_openai E file_descriptions_list,
       emit (Embedded file_descriptions_list) w)
  end.

(** *** [approve_and_save_file]

    The value [create_backup] returns is not looked at; the copy it makes
    is recorded in the trace ([BackedUp]) and not in [fs], since where it
    is put is not known here. *)

Definition approve_and_save_file (new_file_content original_code
    python_file_path repo_path : string) (manual : bool) (w : world)
  : bool * world :=
  let new_file_content := Py.replace "` ``" "```" new_file_content in
  if negb (Py.truthy new_file_content) then
    (false, log INFO ("No changes made to " +:+ python_file_path +:+ ".") w)
  else
    match ensure_docstring_header E new_file_content with
    | None =>
        (false, log ERROR ("Error ensuring docstring header for " +:+ python_file_path) w)
    | Some new_file_content =>
        let failed := log ERROR ("Error updating file " +:+ python_file_path) in
        match create_backup E python_file_path with
        | None => (false, failed w)
        | Some _ =>
            let w := emit (BackedUp python_file_path) w in
            match file_write E python_file_path new_file_content with
            | OpenFails => (false, failed w)
            | WriteFails remains =>
                (false, failed (write_file python_file_path remains w))
            | Written =>
                let w := write_file python_file_path new_file_content w in
                let w := log INFO ("Updated docstrings in " +:+ python_file_path) w in
                match compute_sha256 w python_file_path with
                | None => (false, failed w)
                | Some new_hash =>
                    let relative_path := relpath E python_file_path repo_path in
                    let w := set_cache relative_path new_hash w in
                    (true, log INFO ("Cache updated for " +:+ python_file_path) w)
                end
            end
        end
    end.

(** *** [process_single_file] *)

(** [next((item for item in context_summary if
    str(Path(item["file"])) == str(Path(relative_path))), None)]. *)
Definition cached_entry (relative_path : string) (summary : list entry)
  : option entry :=
  List.find (λ item, String.eqb (Path_str E (entry_file item))
                                (Path_str E relative_path)) summary.

(** The [max_tokens] argument of [construct_few_shot_prompt]:
    [MAX_TOKENS - len(original_code)]. *)
Definition few_shot_budget (original_code : string) : Z :=
  MAX_TOKENS E - Z.of_nat (Py.len original_code).

(** The budget in the words of the design document (section 4.4): the
    model limit minus the token length of the current content of the
    file, for a tokenizer [tokens]. *)
Definition token_budget_spec (tokens : string → nat) (file_content : string) : Z :=
  MAX_TOKENS E - Z.of_nat (tokens file_content).


(** The prompt built for a file whose stored description is
    [file_description]. *)
Definition few_shot_prompt (python_file_path original_code file_description : string)
  : string :=
  construct_few_shot_prompt E (imported_classes E python_file_path)
    (few_shot_budget original_code) file_description.

Definition process_single_file (python_file_path repo_path : string)
    (manual : bool) (w : world) : world :=
  match read_text w python_file_path with
  | None => log ERROR ("Error reading file " +:+ python_file_path) w
  | Some original_code =>
      let relative_path := relpath E python_file_path repo_path in
      let '(file_description, w) :=
        match cached_entry relative_path (context_summary w) with
        | Some item =>
            (entry_description item,
             log DEBUG ("Using cached description for " +:+ python_file_path +:+ ".") w)
        | None =>
            ("", log ERROR "No file description found in context_summary." w)
        end in
      let prompt := few_shot_prompt python_file_path original_code file_description in
      let w := emit (Annotated python_file_path) w in
      match create_file_with_docstring E original_code prompt with
      | AssistantRaises =>
          log ERROR ("Failed to generate docstrings for " +:+ python_file_path) w
      | NoProposal =>
          log WARNING ("Docstrings not added for " +:+ python_file_path +:+ ".") w
      | Proposes new_file_content =>
          let '(result, w) :=
            approve_and_save_file new_file_content original_code
              python_file_path repo_path manual w in
          if result
          then log INFO ("Docstrings successfully added and saved for "
                         +:+ python_file_path +:+ ".") w
          else log WARNING ("Docstrings not added for " +:+ python_file_path +:+ ".") w
      end
  end.

End Pipeline.

(** ** The run: [process_files_and_create_prs]

    The calls that stand outside every [try] and whose code is not at
    hand ([Path.mkdir], [load_cache], [save_cache], [get_python_files],
    [sort_files_by_size], [embed_and_store_files], and in
    [process_single_file] [DocstringExtractor] and
    [construct_few_shot_prompt]) are taken to return. *)

(** The parameters of [process_files_and_create_prs], all required. *)
Record run_args := RunArgs {
  repo_path : string;
  api_key : string;
  create_pr : bool;
  github_token : option string;
  github_repo : option string;
  branch_name : string;
  pr_name : string;
  pr_depth : Z;
  manual : bool;
  target_branch : string;
}.

(** The keyword arguments written at a call site: [None] for a parameter
    the call does not pass. *)
Record pr_kwargs := PrKwargs {
  prkw_repo_path : option string;
  prkw_github_token : option string;
  prkw_github_repo : option string;
  prkw_branch_name : option string;
  prkw_folder : option string;
  prkw_pr_name : option string;
  prkw_target_branch : option string;
}.

(** Binding against
    [create_github_pr(repo_path, github_token, github_repo, branch_name,
    folder, pr_name, target_branch)]: every parameter is required. *)
Definition bind_create_github_pr (k : pr_kwargs) : pyexn + pr_args :=
  match prkw_repo_path k, prkw_github_token k, prkw_github_repo k,
        prkw_branch_name k, prkw_folder k, prkw_pr_name k, prkw_target_branch k with
  | Some a, Some b, Some c, Some d, Some e, Some f, Some g =>
      inr (PrArgs a b c d e f g)
  | _, _, _, _, _, _, _ =>
      inl (Py.missing_arguments "create_github_pr"
             (omap id [Py.unsupplied "repo_path" (prkw_repo_path k);
                       Py.unsupplied "github_token" (prkw_github_token k);
                       Py.unsupplied "github_repo" (prkw_github_repo k);
                       Py.unsupplied "branch_name" (prkw_branch_name k);
                       Py.unsupplied "folder" (prkw_folder k);
                       Py.unsupplied "pr_name" (prkw_pr_name k);
                       Py.unsupplied "target_branch" (prkw_target_branch k)]))
  end.

Record run_kwargs := RunKwargs {
  kw_repo_path : option string;
  kw_api_key : option string;
  kw_create_pr : option bool;
  kw_github_token : option (option string);
  kw_github_repo : option (option string);
  kw_branch_name : option string;
  kw_pr_name : option string;
  kw_pr_depth : option Z;
  kw_manual : option bool;
  kw_target_branch : option string;
}.

(** Binding against the ten required parameters of
    [process_files_and_create_prs]. *)
Definition bind_process_files_and_create_prs (k : run_kwargs) : pyexn + run_args :=
  match kw_repo_path k, kw_api_key k, kw_create_pr k, kw_github_token k,
        kw_github_repo k, kw_branch_name k, kw_pr_name k, kw_pr_depth k,
        kw_manual k, kw_target_branch k with
  | Some a, Some b, Some c, Some d, Some e, Some f, Some g, Some h, Some i, Some j =>
      inr (RunArgs a b c d e f g h i j)
  | _, _, _, _, _, _, _, _, _, _ =>
      inl (Py.missing_arguments "process_files_and_create_prs"
             (omap id [Py.unsupplied "repo_path" (kw_repo_path k);
                       Py.unsupplied "api_key" (kw_api_key k);
                       Py.unsupplied "create_pr" (kw_create_pr k);
                       Py.unsupplied "github_token" (kw_github_token k);
                       Py.unsupplied "github_repo" (kw_github_repo k);
                       Py.unsupplied "branch_name" (kw_branch_name k);
                       Py.unsupplied "pr_name" (kw_pr_name k);
                       Py.unsupplied "pr_depth" (kw_pr_depth k);
                       Py.unsupplied "manual" (kw_manual k);
                       Py.unsupplied "target_branch" (kw_target_branch k)]))
  end.

Section Run.

Variable E : Env.
Variable a : run_args.

(** Step 15 of a folder: the hand-off to the hosting service, behind
    [if create_pr and git_present and github_token and github_repo] (a
    [None] token or repository is falsy). The call of [create_github_pr]
    passes [repo_path], [github_token], [github_repo], [branch_name],
    [pr_name] and [target_branch]. *)
Definition handoff (git_present : bool) (folder : string) (w : world)
  : option pyexn * world :=
  match github_token a, github_repo a with
  | Some token, Some repo =>
      if create_pr a && git_present && Py.truthy token && Py.truthy repo then
        let question :=
          "Do you want to proceed with creating a Pull Request for '"
          +:+ folder +:+ "'?" in
        let confirmed := negb (manual a) || prompt_user_confirmation E question in
        let w :=
          if manual a then
            emit (Asked question (if confirmed then "yes" else "no"))
              (emit (Print ("Pull Request to be created for folder: '"
                            +:+ folder +:+ "'")) w)
          else w in
        if negb confirmed then
          (None, log INFO ("Pull Request creation for folder '" +:+ folder
                           +:+ "' aborted by the user.") w)
        else
          let folder_rel_path := relpath E folder (repo_path a) in
          let w :=
            log INFO ("Creating Pull Request for the folder " +:+ folder_rel_path) w in
          let branch := branch_name a +:+ "_" +:+ Py.replace "/" "_" folder_rel_path in
          match bind_create_github_pr
                  (PrKwargs (Some (repo_path a)) (Some token) (Some repo)
                            (Some branch) None
                            (Some (pr_name a +:+ " `" +:+ folder_rel_path +:+ "`"))
                            (Some (target_branch a))) with
          | inl e => (Some e, w)
          | inr args =>
              let pr_created := create_github_pr E args in
              let w := emit (PullRequest branch pr_created) w in
              if pr_created
              then (None, log INFO ("Pull Request created successfully for folder '"
                                    +:+ folder_rel_path +:+ "'.") w)
              else (None, log ERROR ("Failed to create Pull Request for folder '"
                                     +:+ folder_rel_path +:+ "'.") w)
          end
      else (None, w)
  | _, _ => (None, w)
  end.

(** Steps 12 to 15 for a folder with a non-empty batch. *)
Definition process_batch (git_present : bool) (folder : string)
    (python_files_to_process : list string) (w : world) : option pyexn * world :=
  let w :=
    fold_left (λ w python_file_path,
                 process_single_file E python_file_path (repo_path a) (manual a) w)
              python_files_to_process w in
  let w := emit (SavedContext (context_summary w)) w in
  let w := emit (SavedCache (cache w)) w in
  handoff git_present folder w.

(** The body of the two nested [for] loops, for one folder: the
    exception raised, if any, the queue left and the world. *)
Definition process_folder (git_present : bool) (depth : nat) (folder : string)
    (files_to_describe : list string) (w : world)
  : option pyexn * list string * world :=
  let w := log INFO ("Processing folder '" +:+ folder +:+ "'...") w in
  match assign_folder (Path_str E) depth folder files_to_describe with
  | inl e => (Some e, files_to_describe, w)
  | inr (files_to_describe, []) =>
      (None, files_to_describe,
       log INFO ("No Python files found in folder '" +:+ folder +:+ "'. Skipping.") w)
  | inr (files_to_describe, python_files_to_process) =>
      let '(raised, w) :=
        process_batch git_present folder python_files_to_process w in
      (raised, files_to_describe, w)
  end.

(** The folders in the order of the visit; an exception ends the run.
    The world of a run that raised is the world at the [raise]. *)
Fixpoint dispatch (git_present : bool) (order : list (nat * string))
    (files_to_describe : list string) (w : world) : outcome * world :=
  match order with
  | [] => (Returned, log INFO "All folders processed successfully." w)
  | (depth, folder) :: order' =>
      match process_folder git_present depth folder files_to_describe w with
      | (Some e, _, w) => (Raised e, w)
      | (None, files_to_describe, w) =>
          dispatch git_present order' files_to_describe w
      end
  end.

Definition process_files_and_create_prs (w : world) : outcome * world :=
  let git_present := check_git_repo E (repo_path a) in
  let w :=
    if git_present then w
    else log WARNING ("Git repository not found at " +:+ repo_path a +:+ ".") w in
  let folder_dict := traverse_repo E (repo_path a) (pr_depth a) in
  if negb (assistant_ready E) then
    (Returned, log ERROR "Failed to initialize Assistant or create a thread. Exiting." w)
  else
    let '(files_to_describe, w) :=
      filter_files_by_hash E (python_files_sorted E (repo_path a)) (repo_path a)
        (cache w) w in
    let w :=
      match files_to_describe with
      | [] => log INFO "No new file descriptions needed." w
      | _ =>
          let '(description_file_ids, w) :=
            process_file_descriptions E files_to_describe (repo_path a) w in
          match description_file_ids with
          | [] => log WARNING "No descriptions were uploaded to OpenAI." w
          | _ => w
          end
      end in
    dispatch git_present (dispatch_order folder_dict) files_to_describe w.

End Run.

(** ** The entry point: [main] *)

(** The parsed command line. *)
Record cli := Cli {
  arg_path : string;
  arg_api_key : option string;
  arg_pr : option string;
  arg_github_token : option string;
  arg_branch_name : option string;
  arg_pr_name : option string;
  arg_pr_depth : Z;
  arg_manual : bool;
  arg_help_flags : bool;
  arg_no_cache : bool;
}.

(** What [main] has settled when it reaches the processing step. *)
Record settings := Settings {
  set_path : string;
  set_api_key : string;
  set_github_repo : option string;
  set_github_token : option string;
  set_branch_name : string;
  set_pr_name : string;
  set_pr_depth : Z;
  set_manual : bool;
}.

Section Main.

Variable E : Env.

Definition from_opt (o : option string) : string := default "" o.

(** An optional string inside an f-string. *)
Definition show_opt (o : option string) : string := default "None" o.

(** [input(question).strip().lower()], recorded in the trace. *)
Definition ask (question : string) (w : world) : string * world :=
  let answer := user_input E question in
  (answer, emit (Asked question answer) w).

(** [os.remove(path)]. *)
Definition remove_file (path : string) (w : world) : world :=
  World (delete path (fs w)) (cache w) (context_summary w)
        (trace w ++ [Removed path]).

(** The [--no-cache] branch: both files are removed when they exist; an
    [os.remove] that raises ends [main]. The cache and the context
    summary of the world are what the two files hold. *)
Definition handle_no_cache (args : cli) (w : world) : option pyexn * world :=
  let cache_file := Posix.path_join (arg_path args) (CACHE_FILE_NAME E) in
  let context_summary_file := Posix.path_join (arg_path args) (CONTEXT_SUMMARY_PATH E) in
  let second (removed : bool) (w : world) : option pyexn * world :=
    if path_exists E context_summary_file
       && negb (removed && String.eqb context_summary_file cache_file)
    then
      match os_remove E context_summary_file with
      | None => (Some (OSError context_summary_file), w)
      | Some _ =>
          (None,
           emit (Print ("Deleted context summary file: " +:+ CONTEXT_SUMMARY_PATH E))
             (remove_file context_summary_file
                (World (fs w) (cache w) [] (trace w))))
      end
    else
      (None,
       emit (Print ("No context summary file found: " +:+ CONTEXT_SUMMARY_PATH E)) w) in
  if path_exists E cache_file then
    match os_remove E cache_file with
    | None => (Some (OSError cache_file), w)
    | Some _ =>
        second true
          (emit (Print ("Deleted cache file: " +:+ CACHE_FILE_NAME E))
             (remove_file cache_file
                (World (fs w) ∅ (context_summary w) (trace w))))
    end
  else second false (emit (Print ("No cache file found: " +:+ CACHE_FILE_NAME E)) w).

(** The repository the pull requests go to: [args.pr], replaced by the
    remote of the checkout and then by [GITHUB_REPO] when the user
    answers yes. *)
Definition choose_github_repo (args : cli) (w : world) : option string * world :=
  let '(github_repo, w) :=
    match git_remote E (arg_path args) with
    | Some (user, repo) =>
        if Py.truthy user && Py.truthy repo then
          let w := emit (Print ("The folder " +:+ arg_path args
                                +:+ " is part of the GitHub repository: "
                                +:+ user +:+ "/" +:+ repo)) w in
          let '(proceed, w) :=
            ask "Do you want to create a pull request on this repository? (yes/no): " w in
          if String.eqb proceed "yes" then (Some (user +:+ "/" +:+ repo), w)
          else (arg_pr args, w)
        else (arg_pr args, w)
    | None => (arg_pr args, w)
    end in
  if Py.truthy_opt github_repo then
    let '(proceed, w) :=
      ask ("Do you want to use The folder " +:+ show_opt (getenv E "GITHUB_REPO")
           +:+ " as GitHub repository ? (yes/no): ") w in
    if String.eqb proceed "yes" then (getenv E "GITHUB_REPO", w)
    else (github_repo, w)
  else (github_repo, w).

(** What [main] does after the [--no-cache] branch and before the call
    of [process_files_and_create_prs]: the tests of the API key, of the
    path, of the repository and of the token. *)
Definition main_settle (args : cli) (w : world) : (outcome + settings) * world :=
  let api_key := Py.or_else (arg_api_key args) (getenv E "OPENAI_API_KEY") in
  if negb (Py.truthy_opt api_key) then
    (inl (Exited 1), emit (Print "Error: OpenAI API key must be provided.") w)
  else if negb (path_exists E (arg_path args)) then
    (inl (Exited 1),
     emit (Print ("Error: The specified path '" +:+ arg_path args
                  +:+ "' does not exist.")) w)
  else
    let '(github_repo, w) := choose_github_repo args w in
    let github_token := Py.or_else (arg_github_token args) (getenv E "GITHUB_TOKEN") in
    let branch_name :=
      if Py.truthy_opt (arg_branch_name args) then from_opt (arg_branch_name args)
      else "feature/docstring-updates-" +:+ now_stamp E in
    let pr_name :=
      if Py.truthy_opt (arg_pr_name args) then from_opt (arg_pr_name args)
      else "-- Add docstrings for files in `" +:+ arg_path args +:+ "`" in
    let reached :=
      Settings (arg_path args) (from_opt api_key) github_repo github_token
               branch_name pr_name (arg_pr_depth args) (arg_manual args) in
    let manual_note (w : world) :=
      if arg_manual args
      then emit (Print "Manual validation circuits are enabled.") w else w in
    if negb (Py.truthy_opt github_repo) then
      let w := emit (Print "WARNING: You are running the script without GitHub PR creation.") w in
      let confirmed := prompt_user_confirmation E "Do you wish to continue?" in
      let w := emit (Asked "Do you wish to continue?"
                       (if confirmed then "yes" else "no")) w in
      if confirmed then (inr reached, manual_note w)
      else (inl (Exited 0), emit (Print "Operation aborted by the user.") w)
    else if negb (Py.truthy_opt github_token) then
      (inl (Exited 1), emit (Print "Error: GitHub token must be provided.") w)
    else
      (inr reached,
       manual_note (emit (Print ("GitHub PR enabled for repository: "
                                 +:+ show_opt github_repo)) w)).

(** Everything [main] does before the call of
    [process_files_and_create_prs]: either it ends early, or it reaches
    the call with its settings. *)
Definition main_validate (args : cli) (w : world) : (outcome + settings) * world :=
  if arg_help_flags args then (inl Returned, emit (Print "Available Flags:") w)
  else
    let '(raised, w) :=
      if arg_no_cache args then handle_no_cache args w else (None, w) in
    match raised with
    | Some e => (inl (Raised e), w)
    | None => main_settle args w
    end.

(** The keyword arguments of the call in [main]: nine of them. *)
Definition main_call (s : settings) : run_kwargs :=
  RunKwargs (Some (set_path s)) (Some (set_api_key s))
            (Some (Py.truthy_opt (set_github_repo s)))
            (Some (set_github_token s)) (Some (set_github_repo s))
            (Some (set_branch_name s)) (Some (set_pr_name s))
            (Some (set_pr_depth s)) (Some (set_manual s)) None.

(** [main], over the function called at the processing step. *)
Definition main_with (process : run_args → world → outcome * world)
    (args : cli) (w : world) : outcome * world :=
  match main_validate args w with
  | (inl early, w) => (early, w)
  | (inr s, w) =>
      match bind_process_files_and_create_prs (main_call s) with
      | inl e => (Raised e, w)
      | inr bound => process bound w
      end
  end.

Definition main : cli → world → outcome * world :=
  main_with (process_files_and_create_prs E).

End Main.


(** ** A small repository to evaluate the model on

    Example A of the design document: [a.py] in the root, [pkg/b.py] and
    [pkg/sub/c.py], maximum depth 1, run from the root of the checkout
    ([repo_path] is ["."]). *)
Module Demo.

Definition tree : Traverse.dirtree :=
  Traverse.Dir "." [Traverse.Dir "pkg" [Traverse.Dir "sub" []]].

Definition a_py : string := "x = 1".
Definition b_py : string := "def b(): return 1".
Definition c_py : string := "class C: value = 'some text'".

Definition disk : gmap string string :=
  <["a.py" := a_py]> (<["pkg/b.py" := b_py]> (<["pkg/sub/c.py" := c_py]> ∅)).

(** The files in ascending size, as [sort_files_by_size] returns them. *)
Definition by_size : list string := ["a.py"; "pkg/b.py"; "pkg/sub/c.py"].

(** A stand-in for the digest: any function of the content will do. *)
Definition digest (content : string) : string := "sha256(" +:+ content +:+ ")".



(** The collaborators of the example: every file in [python_files] is
    offered to the assistant, which proposes the code under a comment. *)
Definition env (python_files : list string) : Env := {|
  Path_str := Posix.Path_str;
  relpath := Posix.relpath;
  sha256 := digest;
  getenv := λ _, None;
  path_exists := λ _, true;
  now_stamp := "20240101000000";
  MAX_TOKENS := 64000;
  CACHE_FILE_NAME := "docstring_cache.json";
  CONTEXT_SUMMARY_PATH := "context_summary.json";
  check_git_repo := λ _, true;
  git_remote := λ _, None;
  traverse_repo := λ path depth, Traverse.traverse_repo tree path (Z.to_nat depth);
  assistant_ready := true;
  python_files_sorted := λ _, python_files;
  description_file_path := λ file, "data/" +:+ Posix.with_suffix file ".txt";
  generate_file_description := λ content, Some ("Describes: " +:+ content);
  imported_classes := λ _, [];
  construct_few_shot_prompt := λ _ _ context, context;
  create_file_with_docstring := λ code _, Proposes ("# documented " +:+ code);
  ensure_docstring_header := λ content, Some ("# header " +:+ content);
  create_backup := λ _, Some tt;
  file_write := λ _ _, Written;
  os_remove := λ _, Some tt;
  user_input := λ _, "no";
  prompt_user_confirmation := λ _, true;
  upload_files_to_openai := List.map (λ path, "file-" +:+ path);
  create_github_pr := λ _, true;
|}.

Definition start : world := World disk ∅ [] [].

(** A run without pull requests, and one with them. *)
Definition local_run : run_args :=
  RunArgs "." "key" false None None "docs" "Add docstrings" 1 false "main".

Definition pr_run (manual : bool) : run_args :=
  RunArgs "." "key" true (Some "token") (Some "owner/repo") "docs"
          "Add docstrings" 1 manual "main".

Definition command_line : cli :=
  Cli "." (Some "key") None None None None 1 false false false.

(** The same collaborators with a user who answers no to every question. *)
Definition rejecting (E : Env) : Env := {|
  Path_str := Path_str E;
  relpath := relpath E;
  sha256 := sha256 E;
  getenv := getenv E;
  path_exists := path_exists E;
  now_stamp := now_stamp E;
  MAX_TOKENS := MAX_TOKENS E;
  CACHE_FILE_NAME := CACHE_FILE_NAME E;
  CONTEXT_SUMMARY_PATH := CONTEXT_SUMMARY_PATH E;
  check_git_repo := check_git_repo E;
  git_remote := git_remote E;
  traverse_repo := traverse_repo E;
  assistant_ready := assistant_ready E;
  python_files_sorted := python_files_sorted E;
  description_file_path := description_file_path E;
  generate_file_description := generate_file_description E;
  imported_classes := imported_classes E;
  construct_few_shot_prompt := construct_few_shot_prompt E;
  create_file_with_docstring := create_file_with_docstring E;
  ensure_docstring_header := ensure_docstring_header E;
  create_backup := create_backup E;
  file_write := file_write E;
  os_remove := os_remove E;
  user_input := λ _, "no";
  prompt_user_confirmation := λ _, false;
  upload_files_to_openai := upload_files_to_openai E;
  create_github_pr := create_github_pr E;
|}.

(** The repository after a run that recorded every file: the cache holds
    the digest of each file as it is on disk. *)
Definition settled : world :=
  World disk
        (<["a.py" := digest a_py]>
           (<["pkg/b.py" := digest b_py]> (<["pkg/sub/c.py" := digest c_py]> ∅)))
        [Entry "a.py" "Describes: x = 1"] [].

End Demo.

(** ** Observations on a trace *)

(** The files offered to the assistant, in order. *)
Definition annotated (events : list event) : list string :=
  omap (λ e, match e with Annotated path => Some path | _ => None end) events.

(** An event that backs up the file at [path] or writes to it. *)
Definition writes_to (path : string) (e : event) : Prop :=
  e = BackedUp path ∨ ∃ content, e = Wrote path content.

(** The steps of a run that matter to its progress: a file offered to the
    assistant, the cache written to disk, a pull request attempted. *)
Inductive milestone :=
| Offered (path : string)
| Saved
| PullAttempt.

Definition milestones (events : list event) : list milestone :=
  omap (λ e, match e with
             | Annotated path => Some (Offered path)
             | SavedCache _ => Some Saved
             | PullRequest _ _ => Some PullAttempt
             | _ => None
             end) events.

(** A file that can be read. *)
Definition readable (w : world) (path : string) : bool :=
  bool_decide (is_Some (fs w !! path)).

(** A file that can be read as text. *)
Definition readable_text (w : world) (path : string) : bool :=
  bool_decide (is_Some (read_text w path)).


(** The changed files of a run: what [filter_files_by_hash] selects among
    the Python files of the repository. *)
Definition changed_files (E : Env) (a : run_args) (w : world) : list string :=
  List.filter (hash_changed E (repo_path a) (cache w) w)
              (python_files_sorted E (repo_path a)).

(** ** More of Python's [str] *)
Module PyStr.

Definition newline : string := String (ascii_of_nat 10) "".

(** [c.isspace()] for the characters of ASCII: space, tab, line feed,
    vertical tab, form feed, carriage return and the four separators
    0x1c to 0x1f. *)
Definition isspace (c : ascii) : bool :=
  let n := nat_of_ascii c in
  Nat.eqb n 32 || (Nat.leb 9 n && Nat.leb n 13) || (Nat.leb 28 n && Nat.leb n 31).

(** [s.lstrip()], [s.rstrip()] and [s.strip()]. *)
Fixpoint lstrip (s : string) : string :=
  match s with
  | String c rest => if isspace c then lstrip rest else s
  | EmptyString => EmptyString
  end.

Definition rstrip (s : string) : string := String.rev (lstrip (String.rev s)).

Definition strip (s : string) : string := rstrip (lstrip s).

(** [s.split(sep)] for a separator of one character; [cur] is the piece
    read so far. *)
Fixpoint split_from (sep : ascii) (cur s : string) : list string :=
  match s with
  | EmptyString => [cur]
  | String c rest =>
      if Ascii.eqb c sep then cur :: split_from sep "" rest
      else split_from sep (cur +:+ String c "") rest
  end.

Definition split (sep : ascii) (s : string) : list string := split_from sep "" s.

(** [s[:n]]. *)
Fixpoint take (n : nat) (s : string) : string :=
  match n, s with
  | S n', String c rest => String c (take n' rest)
  | _, _ => EmptyString
  end.

(** [s.endswith(suffix)]. *)
Definition endswith (s suffix : string) : bool :=
  String.prefix (String.rev suffix) (String.rev s).

(** Every character of [s] satisfies [p]. *)
Fixpoint all_chars (p : ascii → bool) (s : string) : bool :=
  match s with
  | EmptyString => true
  | String c rest => p c && all_chars p rest
  end.

End PyStr.

(** ** [docstring_ai/lib/github_utils.py]

    The functions of the module run [git] through [subprocess.run] and
    talk to the hosting service through PyGithub. What the commands and
    the service answer is taken from a [system]: each answer may depend
    on everything that happened before, the history, which the functions
    extend with what they do. [git] is taken to be installed: a command
    always runs and yields a return code. *)
Module Github.

(** The outcome of [subprocess.run]. *)
Record completed := Completed {
  returncode : Z;
  stdout : string;
}.

(** What the functions do, in order: a command with its return code, the
    lookup of the repository, the creation of a pull request, a line in
    the log. *)
Inductive action :=
| Ran (argv : list string) (code : Z)
| GotRepo (name : string) (found : bool)
| Pull (title body head base : string) (created : bool)
| Logged (lvl : level) (msg : string).

(** [get_repo] tells whether [Github(token).get_repo(name)] returns (it
    raises otherwise); [create_pull] gives the address of the pull request
    created, [None] when it raises [GithubException]. *)
Record system := {
  run : list action → list string → completed;
  get_repo : list action → string → string → bool;
  create_pull : list action → string → string → string → string → option string;
  uuid4_hex : list action → string;
}.

(** The characters of the class [A-Za-z0-9_-]. *)
Definition branch_char (c : ascii) : bool :=
  let n := nat_of_ascii c in
  (Nat.leb 65 n && Nat.leb n 90) || (Nat.leb 97 n && Nat.leb n 122)
  || (Nat.leb 48 n && Nat.leb n 57) || Nat.eqb n 95 || Nat.eqb n 45.

(** [re.sub(r'[^A-Za-z0-9_-]+', '_', s)]: every maximal run of characters
    outside the class becomes one ["_"]; [in_run] tells that the previous
    character was outside the class. A character beyond ASCII is a run of
    bytes outside the class, so that runs of characters and runs of bytes
    give the same result. *)
Fixpoint sub_invalid_runs (in_run : bool) (s : string) : string :=
  match s with
  | EmptyString => EmptyString
  | String c rest =>
      if branch_char c then String c (sub_invalid_runs false rest)
      else if in_run then sub_invalid_runs true rest
      else String "_" (sub_invalid_runs true rest)
  end.

Definition sanitize_branch_name (name : string) : string :=
  let sanitized := Py.replace "/" "-" name in
  sub_invalid_runs false sanitized.

Definition create_pull_request_body (changed_files : list string) : string :=
  fold_left (λ pr_body file, pr_body +:+ "- `" +:+ file +:+ "`" +:+ PyStr.newline)
            changed_files
            ("Automated docstring additions." +:+ PyStr.newline +:+ PyStr.newline
             +:+ "**Files Changed:**" +:+ PyStr.newline).

(** The header of the body and the line of one file. *)
Definition body_header : string :=
  "Automated docstring additions." +:+ PyStr.newline +:+ PyStr.newline
  +:+ "**Files Changed:**" +:+ PyStr.newline.

Definition body_line (file : string) : string :=
  "- `" +:+ file +:+ "`" +:+ PyStr.newline.

Definition body_lines (files : list string) : string :=
  fold_right (λ file rest, body_line file +:+ rest) "" files.

Section Commands.

Variable sys : system.

(** [subprocess.run(argv, ...)], recorded in the history. *)
Definition call (argv : list string) (h : list action) : completed * list action :=
  let result := run sys h argv in
  (result, h ++ [Ran argv (returncode result)]).

Definition logged (lvl : level) (msg : string) (h : list action) : list action :=
  h ++ [Logged lvl msg].

Definition git (repo_path : string) (args : list string) : list string :=
  "git" :: "-C" :: repo_path :: args.

(** [uuid.uuid4().hex[:8]]. *)
Definition generate_unique_suffix (h : list action) : string :=
  PyStr.take 8 (uuid4_hex sys h).

Definition has_unstaged_changes (repo_path : string) (h : list action)
  : bool * list action :=
  let '(result, h) := call (git repo_path ["diff"; "--quiet"]) h in
  (negb (Z.eqb (returncode result) 0), h).

(** With [check=True] a return code other than 0 raises
    [CalledProcessError]. *)
Definition get_staged_files (repo_path : string) (h : list action)
  : list string * list action :=
  let '(result, h) := call (git repo_path ["diff"; "--cached"; "--name-only"]) h in
  if Z.eqb (returncode result) 0 then
    let staged_files := PyStr.split (ascii_of_nat 10) (PyStr.strip (stdout result)) in
    (List.filter Py.truthy staged_files, h)
  else ([], logged ERROR "Failed to retrieve staged files" h).

Definition checkout_branch (repo_path branch_name : string) (h : list action)
  : bool * list action :=
  let '(result, h) := call (git repo_path ["checkout"; branch_name]) h in
  if Z.eqb (returncode result) 0
  then (true, logged INFO ("Checked out to branch '" +:+ branch_name +:+ "'.") h)
  else (false, logged ERROR ("Failed to checkout branch '" +:+ branch_name +:+ "'") h).

Definition log_git_status (repo_path : string) (h : list action)
  : bool * list action :=
  let '(result, h) := call (git repo_path ["status"]) h in
  if Z.eqb (returncode result) 0
  then (true, logged INFO ("Git Status:" +:+ PyStr.newline +:+ stdout result) h)
  else (false, logged ERROR "Failed to retrieve git status" h).

Definition commit_and_push_changes (repo_path branch_name commit_message : string)
    (h : list action) : bool * list action :=
  let failed (h : list action) := (false, logged ERROR "Git command failed" h) in
  let '(result, h) := call (git repo_path ["checkout"; "-B"; branch_name]) h in
  if negb (Z.eqb (returncode result) 0) then failed h
  else
    let h := logged INFO ("Checked out to branch '" +:+ branch_name +:+ "' locally.") h in
    let '(result, h) := call (git repo_path ["add"; "."]) h in
    if negb (Z.eqb (returncode result) 0) then failed h
    else
      let h := logged INFO "Added all changes to staging." h in
      let '(result, h) := call (git repo_path ["diff"; "--cached"; "--exit-code"]) h in
      if Z.eqb (returncode result) 0
      then (true, logged INFO "No changes to commit." h)
      else
        let '(result, h) := call (git repo_path ["commit"; "-m"; commit_message]) h in
        if negb (Z.eqb (returncode result) 0) then failed h
        else
          let h := logged INFO ("Committed changes with message: '"
                                +:+ commit_message +:+ "'") h in
          let '(result, h) :=
            call (git repo_path ["push"; "-u"; "origin"; branch_name]) h in
          if negb (Z.eqb (returncode result) 0) then failed h
          else (true, logged INFO ("Changes pushed to branch '" +:+ branch_name
                                   +:+ "' on remote.") h).

Definition commit_message : string :=
  "[Docstring-AI] ✨ Add docstrings via Docstring-AI script".

(** The handler [except Exception] of [create_github_pr]. *)
Definition unexpected_error (repo_path target_branch : string) (h : list action)
  : bool * list action :=
  let h := logged ERROR "Unexpected error in create_github_pr" h in
  let '(back, h) := checkout_branch repo_path target_branch h in
  (false,
   if back then h
   else logged WARNING ("Failed to checkout to target branch '" +:+ target_branch
                        +:+ "' after an error.") h).

Definition create_github_pr (args : pr_args) (h : list action) : bool * list action :=
  let repo_path := pr_repo_path args in
  let target_branch := pr_target_branch args in
  let found := get_repo sys h (pr_github_token args) (pr_github_repo args) in
  let h := h ++ [GotRepo (pr_github_repo args) found] in
  if negb found then unexpected_error repo_path target_branch h
  else
    let sanitized_branch_name := sanitize_branch_name (pr_branch_name args) in
    let unique_suffix := generate_unique_suffix h in
    let full_branch_name := sanitized_branch_name +:+ "_" +:+ unique_suffix in
    let h := logged INFO ("Generated unique branch name: '" +:+ full_branch_name +:+ "'") h in
    let '(unstaged, h) := has_unstaged_changes repo_path h in
    if negb unstaged then
      (false, logged WARNING "No unstaged changes detected. Skipping commit, branch creation, and PR creation." h)
    else
      let '(result, h) := call (git repo_path ["add"; "."]) h in
      if negb (Z.eqb (returncode result) 0)
      then (false, logged ERROR "Failed to stage changes" h)
      else
        let h := logged INFO "All unstaged changes added to staging area." h in
        let '(switched, h) := checkout_branch repo_path full_branch_name h in
        if negb switched then
          (false, logged ERROR ("Failed to create or switch to branch '"
                                +:+ full_branch_name +:+ "'.") h)
        else
          let '(changed_files, h) := get_staged_files repo_path h in
          match changed_files with
          | [] => (false, logged WARNING "No staged files detected. Skipping PR creation." h)
          | _ =>
              let '(pushed, h) :=
                commit_and_push_changes repo_path full_branch_name commit_message h in
              if negb pushed
              then (false, logged ERROR "Failed to commit and push changes." h)
              else
                let title := "[Docstring-AI] " +:+ pr_title args in
                let pr_body := create_pull_request_body changed_files in
                match create_pull sys h title pr_body full_branch_name target_branch with
                | None =>
                    (false,
                     logged ERROR "GitHub API error while creating PR"
                       (h ++ [Pull title pr_body full_branch_name target_branch false]))
                | Some html_url =>
                    let h := logged INFO ("Pull Request created: " +:+ html_url)
                               (h ++ [Pull title pr_body full_branch_name
                                           target_branch true]) in
                    let '(back, h) := checkout_branch repo_path target_branch h in
                    (true,
                     if back
                     then logged INFO ("Successfully checked out to target branch '"
                                       +:+ target_branch +:+ "'.") h
                     else logged WARNING ("Failed to checkout to target branch '"
                                          +:+ target_branch +:+ "'.") h)
                end
          end.

(** The branch [create_github_pr] works on: the sanitized name and the
    suffix drawn after the repository was found. *)
Definition full_branch_name (args : pr_args) (h : list action) : string :=
  sanitize_branch_name (pr_branch_name args) +:+ "_"
  +:+ generate_unique_suffix (h ++ [GotRepo (pr_github_repo args) true]).

(** The commands of [commit_and_push_changes], in the order it runs
    them. *)
Definition commit_steps (repo_path branch_name message : string) : list (list string) :=
  [git repo_path ["checkout"; "-B"; branch_name];
   git repo_path ["add"; "."];
   git repo_path ["diff"; "--cached"; "--exit-code"];
   git repo_path ["commit"; "-m"; message];
   git repo_path ["push"; "-u"; "origin"; branch_name]].

End Commands.

(** The commands of a history, in order. *)
Definition commands (h : list action) : list (list string) :=
  omap (λ x, match x with Ran argv _ => Some argv | _ => None end) h.

Definition is_pull (x : action) : bool :=
  match x with Pull _ _ _ _ _ => true | _ => false end.

(** What was added to the history [h] to reach [h']. *)
Definition since (h h' : list action) : list action := drop (length h) h'.

Arguments since : simpl never.

End Github.

(** *** [get_python_files] of [github_utils.py] *)
Module Files.

(** A directory: its name, the names of its files and its
    subdirectories, in the order [os.walk] lists them. *)
Local Unset Elimination Schemes.
Inductive folder :=
  Folder (name : string) (files : list string) (subfolders : list folder).
Local Set Elimination Schemes.

Definition folder_name (t : folder) : string :=
  match t with Folder name _ _ => name end.

(** [d.startswith('.')] and [file.endswith('.py')]. *)
Definition hidden (name : string) : bool := Py.startswith name ".".

Definition is_python (file : string) : bool := PyStr.endswith file ".py".

(** The loop over [os.walk(repo_path)]: the Python files of a directory,
    then its subdirectories in turn, the hidden ones being removed from
    the walk by [dirs[:] = [d for d in dirs if not d.startswith('.')]]. *)
Fixpoint walk_python (root : string) (t : folder) : list string :=
  match t with
  | Folder _ files subfolders =>
      List.map (Posix.path_join root) (List.filter is_python files)
      ++ flat_map (λ d, if hidden (folder_name d) then []
                        else walk_python (Posix.path_join root (folder_name d)) d)
                  subfolders
  end.

Definition get_python_files (relpath : string → string → string)
    (repo_path : string) (tree : folder) : list string :=
  List.map (λ full_path, relpath full_path repo_path) (walk_python repo_path tree).

(** Every file of a tree with the names of the directories that lead to
    it from the root, in the order of a top-down walk. *)
Fixpoint all_files (t : folder) : list (list string * string) :=
  match t with
  | Folder _ files subfolders =>
      List.map (pair []) files
      ++ flat_map (λ d, List.map (λ entry, (folder_name d :: fst entry, snd entry))
                                 (all_files d))
                  subfolders
  end.

(** [os.path.join] along the directories down to the file. *)
Definition full_path (root : string) (entry : list string * string) : string :=
  Posix.path_join (fold_left Posix.path_join (fst entry) root) (snd entry).

(** A Python file none of whose directories below the root is hidden. *)
Definition visible_python (entry : list string * string) : bool :=
  forallb (λ d, negb (hidden d)) (fst entry) && is_python (snd entry).

End Files.

(** *** [upload_files_to_openai] of [process.py] *)
Module Uploads.

Section Upload.

(** [openai.files.create] on the file at a path, given the identifiers
    returned so far: the identifier of the upload, [None] when the file
    cannot be opened or the call raises. *)
Variable files_create : list string → string → option string.

Definition upload_step (st : list string * world) (file_path : string)
  : list string * world :=
  let '(file_ids, w) := st in
  match files_create file_ids file_path with
  | Some id => (file_ids ++ [id], w)
  | None => (file_ids, log ERROR ("Failed to upload " +:+ file_path) w)
  end.

Definition upload_files_to_openai (file_paths : list string) (w : world)
  : list string * world :=
  fold_left upload_step file_paths ([], w).

End Upload.

End Uploads.

(** ** Further cases to evaluate the model on *)
Module Cases.

(** A checkout of the branch [main] with changes: [git diff --quiet]
    reports them and two files get staged. No other branch is there, so
    that [git checkout] succeeds for [main] and fails for any other
    name. *)
Definition dirty : Github.system := {|
  Github.run := λ _ argv,
    match argv with
    | [_; _; _; "diff"; "--quiet"] => Github.Completed 1 ""
    | [_; _; _; "diff"; "--cached"; "--exit-code"] => Github.Completed 1 ""
    | [_; _; _; "diff"; "--cached"; "--name-only"] =>
        Github.Completed 0 ("a.py" +:+ PyStr.newline +:+ "pkg/b.py" +:+ PyStr.newline)
    | [_; _; _; "checkout"; branch_name] =>
        Github.Completed (if String.eqb branch_name "main" then 0 else 1) ""
    | _ => Github.Completed 0 ""
    end;
  Github.get_repo := λ _ _ _, true;
  Github.create_pull := λ _ _ _ _ _, Some "https://github.com/owner/repo/pull/1";
  Github.uuid4_hex := λ _, "0123456789abcdef0123456789abcdef";
|}.

(** The same with nothing changed. *)
Definition clean : Github.system := {|
  Github.run := λ _ _, Github.Completed 0 "";
  Github.get_repo := λ _ _ _, true;
  Github.create_pull := λ _ _ _ _ _, Some "https://github.com/owner/repo/pull/1";
  Github.uuid4_hex := λ _, "0123456789abcdef0123456789abcdef";
|}.

(** The same with a repository the service does not know. *)
Definition unknown_repo : Github.system := {|
  Github.run := Github.run dirty;
  Github.get_repo := λ _ _ _, false;
  Github.create_pull := Github.create_pull dirty;
  Github.uuid4_hex := Github.uuid4_hex dirty;
|}.

(** The collaborators of an example on a disk that is full: a file is
    opened and emptied, and the write raises. *)
Definition full_disk (E : Env) : Env := {|
  Path_str := Path_str E;
  relpath := relpath E;
  sha256 := sha256 E;
  getenv := getenv E;
  path_exists := path_exists E;
  now_stamp := now_stamp E;
  MAX_TOKENS := MAX_TOKENS E;
  CACHE_FILE_NAME := CACHE_FILE_NAME E;
  CONTEXT_SUMMARY_PATH := CONTEXT_SUMMARY_PATH E;
  check_git_repo := check_git_repo E;
  git_remote := git_remote E;
  traverse_repo := traverse_repo E;
  assistant_ready := assistant_ready E;
  python_files_sorted := python_files_sorted E;
  description_file_path := description_file_path E;
  generate_file_description := generate_file_description E;
  imported_classes := imported_classes E;
  construct_few_shot_prompt := construct_few_shot_prompt E;
  create_file_with_docstring := create_file_with_docstring E;
  ensure_docstring_header := ensure_docstring_header E;
  create_backup := create_backup E;
  file_write := λ _ _, WriteFails "";
  os_remove := os_remove E;
  user_input := user_input E;
  prompt_user_confirmation := prompt_user_confirmation E;
  upload_files_to_openai := upload_files_to_openai E;
  create_github_pr := create_github_pr E;
|}.

Definition pr : pr_args :=
  PrArgs "." "token" "owner/repo" "feature/docs pkg" "./pkg" "Add docstrings `pkg`" "main".







(** The repository of the example after a run, with the file of the cache
    and the file of the context summary on disk. *)
Definition cached : world :=
  World (<["./docstring_cache.json" := "{}"]>
           (<["./context_summary.json" := "[]"]> Demo.disk))
        (cache Demo.settled) (context_summary Demo.settled) [].

(** The command line of the example with [--no-cache], and no API key. *)
Definition no_cache : cli :=
  Cli "." None None None None None 1 false false true.

End Cases.

(** * Properties *)

(** ** The assignment loop *)

Section AssignmentFacts.

Variable Path_str : string → string.


Lemma leading_behind depth folder queue :
  leading Path_str depth folder queue ++ behind Path_str depth folder queue = queue.
Proof.
  induction queue as [|f rest IH]; simpl; [done|].
  destruct (claims Path_str depth folder f); simpl; [by rewrite IH | done].
Qed.

(** A head that the folder does not claim blocks every later iteration. *)
Lemma assign_loop_blocked n depth folder f rest taken :
  claims Path_str depth folder f = false →
  assign_loop Path_str n depth folder (f :: rest) taken = inr (f :: rest, taken).
Proof.
  intros Hf. induction n as [|n IH]; simpl; [done|]. by rewrite Hf.
Qed.

(** With as many iterations as the queue is long, the loop moves the
    leading claimed files to the batch and stops at the first other file;
    it never indexes an empty queue. *)
Lemma assign_loop_leading depth folder queue taken :
  assign_loop Path_str (length queue) depth folder queue taken
  = inr (behind Path_str depth folder queue, taken ++ leading Path_str depth folder queue).
Proof.
  revert taken. induction queue as [|f rest IH]; intros taken; simpl.
  - by rewrite app_nil_r.
  - destruct (claims Path_str depth folder f) eqn:Hf.
    + rewrite IH. by rewrite <- app_assoc.
    + rewrite assign_loop_blocked by done. by rewrite app_nil_r.
Qed.

Lemma assign_folder_leading depth folder queue :
  assign_folder Path_str depth folder queue
  = inr (behind Path_str depth folder queue, leading Path_str depth folder queue).
Proof. unfold assign_folder. by rewrite assign_loop_leading. Qed.

(** At depth 0 the folder takes the whole queue. *)
Lemma leading_root folder queue : leading Path_str 0 folder queue = queue.
Proof.
  induction queue as [|f rest IH]; simpl; [done|].
  unfold claims. rewrite orb_true_r. by rewrite IH.
Qed.

Lemma behind_root folder queue : behind Path_str 0 folder queue = [].
Proof.
  induction queue as [|f rest IH]; simpl; [done|].
  unfold claims. by rewrite orb_true_r.
Qed.

(** The visit never raises, and the batches followed by the files left
    over are the queue itself: every batch is a contiguous run of it. *)
Lemma assign_all_concat order queue :
  ∃ bs final,
    assign_all Path_str order queue = inr (bs, final)
    ∧ assigned bs ++ final = queue
    ∧ List.map (λ b, (batch_depth b, batch_folder b)) bs = order.
Proof.
  revert queue. induction order as [|[depth folder] order IH]; intros queue; simpl.
  - by exists [], queue.
  - rewrite assign_folder_leading.
    destruct (IH (behind Path_str depth folder queue)) as (bs & final & -> & Hcat & Hord).
    eexists _, _. split; [done|]. split.
    + unfold assigned in *. simpl. rewrite <- app_assoc, Hcat.
      apply leading_behind.
    + simpl. by rewrite Hord.
Qed.

(** Once a folder of depth 0 has been visited nothing is left. *)
Lemma assign_all_root order queue bs final :
  assign_all Path_str order queue = inr (bs, final) →
  (∃ folder, (0, folder) ∈ order) →
  final = [].
Proof.
  revert queue bs final.
  induction order as [|[depth folder] order IH]; intros queue bs final Hrun [root Hin].
  - by apply elem_of_nil in Hin.
  - simpl in Hrun. rewrite assign_folder_leading in Hrun.
    destruct (assign_all Path_str order (behind Path_str depth folder queue))
      as [e|[bs' final']] eqn:Hrest; [done|].
    injection Hrun as <- <-.
    apply elem_of_cons in Hin as [Heq|Hin].
    + injection Heq as <- <-. rewrite behind_root in Hrest.
      destruct (assign_all_concat order []) as (bs2 & final2 & Hrun2 & Hcat & _).
      rewrite Hrest in Hrun2. injection Hrun2 as <- <-.
      by apply app_eq_nil in Hcat as [_ ?].
    + eapply IH; [done|]. by exists root.
Qed.

End AssignmentFacts.

(** ** The directory walk and the order of the visit *)

Section TraverseFacts.

Import Traverse.

Lemma dirtree_induction (P : dirtree → Prop) :
  (∀ name subdirs, Forall P subdirs → P (Dir name subdirs)) → ∀ t, P t.
Proof.
  intros step. fix IH 1. intros [name subdirs]. apply step.
  induction subdirs as [|s rest IHrest]; constructor; [apply IH | exact IHrest].
Qed.

Lemma parents_first_mono depths : ∀ seen seen',
  seen ⊆ seen' → parents_first seen depths → parents_first seen' depths.
Proof.
  induction depths as [|d rest IH]; intros seen seen' Hsub; simpl; [done|].
  intros [Hd Hrest]. split; [intros k Hk; apply Hsub; by apply Hd|].
  eapply IH; [|exact Hrest]. set_solver.
Qed.

Lemma parents_first_app l1 : ∀ l2 seen,
  parents_first seen l1 →
  (∀ seen', seen ⊆ seen' → parents_first seen' l2) →
  parents_first seen (l1 ++ l2).
Proof.
  induction l1 as [|d rest IH]; intros l2 seen; simpl.
  - intros _ H2. by apply H2.
  - intros [Hd Hrest] H2. split; [done|].
    apply IH; [done|]. intros seen' Hsub. apply H2. set_solver.
Qed.

Lemma walk_parents_first t : ∀ depth path seen,
  (∀ k, depth = S k → k ∈ seen) →
  parents_first seen (List.map fst (walk depth path t)).
Proof.
  induction t as [name subdirs IH] using dirtree_induction.
  intros depth path seen Hparent. simpl. split; [done|].
  assert (∀ seen', depth ∈ seen' →
            parents_first seen'
              (List.map fst
                 (flat_map (λ s, walk (S depth) (Posix.path_join path (dir_name s)) s)
                           subdirs))) as Hsubs.
  { induction IH as [|s rest Hs _ IHrest]; intros seen' Hin; simpl; [done|].
    rewrite map_app. apply parents_first_app.
    - apply Hs. intros k Hk. by injection Hk as <-.
    - intros seen'' Hsub. apply IHrest. by apply Hsub. }
  apply Hsubs. set_solver.
Qed.

Lemma keys_setdefault_append d depth folder :
  keys (setdefault_append d depth folder)
  = if bool_decide (depth ∈ keys d) then keys d else keys d ++ [depth].
Proof.
  induction d as [|[k folders] d IH]; simpl; [done|].
  destruct (Nat.eqb_spec k depth) as [->|Hne]; simpl.
  - clear IH. rewrite bool_decide_eq_true_2; [done | set_solver].
  - rewrite IH.
    rewrite (bool_decide_ext (depth ∈ k :: keys d) (depth ∈ keys d)) by set_solver.
    by destruct (bool_decide (depth ∈ keys d)).
Qed.

(** The depths are recorded in the order 0, 1, 2, ... *)
Lemma record_keys (pr_depth : nat) visits : ∀ d (seen : list nat) (n : nat),
  keys d = seq 0 n →
  (∀ k : nat, k ∈ seen → (k ≤ pr_depth)%nat → (k < n)%nat) →
  parents_first seen (List.map fst visits) →
  ∃ n', keys (fold_left (record pr_depth) visits d) = seq 0 n'.
Proof.
  induction visits as [|[depth path] visits IH]; intros d seen n Hkeys Hseen Hwalk.
  - by exists n.
  - simpl in Hwalk. destruct Hwalk as [Hparent Hrest]. simpl.
    unfold record at 2. simpl.
    destruct (Nat.leb_spec depth pr_depth) as [Hle|Hgt].
    + assert (depth ≤ n) as Hdn.
      { destruct depth as [|k]; [lia|].
        specialize (Hseen k (Hparent k eq_refl)). lia. }
      destruct (decide (depth < n)) as [Hlt|Hge].
      * eapply (IH _ (depth :: seen) n); [| |exact Hrest].
        -- rewrite keys_setdefault_append, bool_decide_eq_true_2; [done|].
           rewrite Hkeys. apply elem_of_seq. lia.
        -- intros k [->|Hk]%elem_of_cons; [done | by apply Hseen].
      * assert (depth = n) as -> by lia.
        eapply (IH _ (n :: seen) (S n)); [| |exact Hrest].
        -- rewrite keys_setdefault_append, bool_decide_eq_false_2.
           ++ rewrite Hkeys. by rewrite seq_S.
           ++ rewrite Hkeys. intros ?%elem_of_seq. lia.
        -- intros k [->|Hk]%elem_of_cons; [lia|].
           intros Hkp. specialize (Hseen k Hk Hkp). lia.
    + eapply (IH _ (depth :: seen) n); [done| |exact Hrest].
      intros k [->|Hk]%elem_of_cons; [lia | by apply Hseen].
Qed.

Lemma traverse_repo_keys tree path pr_depth :
  ∃ n, keys (traverse_repo tree path pr_depth) = seq 0 n.
Proof.
  unfold traverse_repo.
  apply (record_keys pr_depth _ [] [] 0); [done | by intros k ?%elem_of_nil|].
  apply walk_parents_first. by intros k [=].
Qed.

Lemma walk_depths t : ∀ depth path,
  Forall (λ visit, depth ≤ fst visit) (walk depth path t).
Proof.
  induction t as [name subdirs IH] using dirtree_induction.
  intros depth path. simpl. constructor; [done|].
  induction IH as [|s rest Hs _ IHrest]; simpl; [done|].
  apply Forall_app. split; [|done].
  eapply Forall_impl; [apply Hs|]. simpl. lia.
Qed.

(** The root comes first in the dictionary, alone under depth 0. *)
Lemma record_head pr_depth root visits : ∀ d,
  Forall (λ visit, 1 ≤ fst visit) visits →
  ∃ d', fold_left (record pr_depth) visits ((0, [root]) :: d) = (0, [root]) :: d'.
Proof.
  induction visits as [|[depth path] visits IH]; intros d Hdeep; simpl.
  - by eexists.
  - apply Forall_cons in Hdeep as [Hdepth Hdeep]. simpl in Hdepth.
    unfold record at 2. simpl. destruct (Nat.leb depth pr_depth); [|by apply IH].
    destruct depth as [|k]; [lia|]. simpl. by apply IH.
Qed.

Lemma traverse_repo_head tree path pr_depth :
  ∃ d, traverse_repo tree path pr_depth = (0, [path]) :: d.
Proof.
  unfold traverse_repo. destruct tree as [name subdirs]. simpl.
  unfold record at 2. simpl. apply record_head.
  induction subdirs as [|s rest IH]; simpl; [done|].
  apply Forall_app. split; [apply walk_depths | exact IH].
Qed.

End TraverseFacts.

Section OrderFacts.

Lemma seq_strongly_sorted n : ∀ start, StronglySorted lt (seq start n).
Proof.
  induction n as [|n IH]; intros start; simpl; constructor; [apply IH|].
  apply Forall_forall. intros k Hk%elem_of_seq. lia.
Qed.

Lemma depths_dispatch_order_elem fd k :
  k ∈ depths (dispatch_order fd) → k ∈ List.map fst fd.
Proof.
  unfold depths, dispatch_order. intros Hk.
  apply list_elem_of_fmap in Hk as [[depth folder] [-> Hin]].
  apply list_elem_of_In, in_flat_map in Hin as [[depth' folders] [Hfd Hin]].
  apply in_map_iff in Hin as [folder' [[= <- <-] _]].
  apply list_elem_of_fmap. exists (depth', folders). split; [done|].
  apply list_elem_of_In in Hfd. by rewrite elem_of_reverse in Hfd.
Qed.

Lemma depths_dispatch_cons depth folders fd :
  depths (dispatch_order ((depth, folders) :: fd))
  = depths (dispatch_order fd) ++ replicate (length folders) depth.
Proof.
  unfold depths, dispatch_order.
  rewrite reverse_cons, flat_map_app, map_app. f_equal.
  simpl. rewrite app_nil_r.
  induction folders as [|f folders IH]; simpl; [done | by f_equal].
Qed.

Lemma replicate_sorted n (d : nat) : StronglySorted ge (replicate n d).
Proof.
  induction n as [|n IH]; simpl; constructor; [done|].
  apply Forall_forall. intros x [-> _]%elem_of_replicate. lia.
Qed.

(** Keys in ascending order give a visit in descending depth. *)
Lemma dispatch_order_sorted fd :
  StronglySorted lt (List.map fst fd) →
  StronglySorted ge (depths (dispatch_order fd)).
Proof.
  induction fd as [|[depth folders] fd IH]; intros Hsorted.
  - constructor.
  - simpl in Hsorted. apply StronglySorted_inv in Hsorted as [Hfd Hall].
    rewrite depths_dispatch_cons.
    apply StronglySorted_app_2; [|by apply IH|apply replicate_sorted].
    intros x1 x2 H1 [-> _]%elem_of_replicate.
    apply depths_dispatch_order_elem in H1.
    rewrite Forall_forall in Hall. specialize (Hall x1 H1). lia.
Qed.

Lemma filter_strongly_sorted {A} (R : A → A → Prop) (p : A → bool) l :
  StronglySorted R l → StronglySorted R (List.filter p l).
Proof.
  induction 1 as [|x l Hl IH Hall]; simpl; [constructor|].
  destruct (p x); [|done]. constructor; [done|].
  apply Forall_forall. intros y Hy.
  apply list_elem_of_In, filter_In in Hy as [Hy _].
  rewrite Forall_forall in Hall. apply Hall. by apply list_elem_of_In.
Qed.

End OrderFacts.

(** ** Batches of a run *)

Section BatchFacts.

Variable Path_str : string → string.

Lemma assign_batches_depths fd files bs final :
  assign_batches Path_str fd files = inr (bs, final) →
  List.map batch_depth bs = depths (dispatch_order fd).
Proof.
  unfold assign_batches. intros Hrun.
  destruct (assign_all_concat Path_str (dispatch_order fd) files)
    as (bs' & final' & Hrun' & _ & Hord).
  rewrite Hrun in Hrun'. injection Hrun' as <- <-.
  rewrite <- Hord. unfold depths. rewrite <- list_fmap_compose.
  by apply list_fmap_ext.
Qed.

(** With a dictionary built by the directory walk the batches, in the
    order of the visit, are the queue cut into consecutive runs, and
    nothing is left over: as a multiset the assigned files are the
    changed files. *)
Lemma assign_batches_cover tree path pr_depth files :
  ∃ bs,
    assign_batches Path_str (Traverse.traverse_repo tree path pr_depth) files
    = inr (bs, [])
    ∧ assigned bs = files.
Proof.
  unfold assign_batches.
  destruct (assign_all_concat Path_str
              (dispatch_order (Traverse.traverse_repo tree path pr_depth)) files)
    as (bs & final & Hrun & Hcat & _).
  assert (final = []) as ->.
  { eapply assign_all_root; [exact Hrun|]. exists path.
    destruct (traverse_repo_head tree path pr_depth) as (d & ->).
    unfold dispatch_order. rewrite reverse_cons, flat_map_app.
    apply elem_of_app. right. simpl. set_solver. }
  exists bs. split; [done|]. by rewrite app_nil_r in Hcat.
Qed.

(** C7. Depth ordering: for every directory tree, every maximum depth and
    every queue of changed files, the folders are visited, and so the
    batches processed, in non-increasing depth: whenever one batch is
    processed before another its depth is at least the depth of the
    other. The visit starts with the deepest recorded depth and ends
    with the root folder at depth 0. *)
Theorem batches_in_descending_depth
    (tree : Traverse.dirtree) (path : string) (pr_depth : nat) (files : list string) :
  ∃ bs root_files,
    assign_batches Path_str (Traverse.traverse_repo tree path pr_depth) files
    = inr (bs, [])
    ∧ StronglySorted (λ b1 b2, batch_depth b2 ≤ batch_depth b1) (processed bs)
    ∧ StronglySorted (λ b1 b2, batch_depth b2 ≤ batch_depth b1) bs
    ∧ last bs = Some (Batch 0 path root_files).
Proof.
  destruct (assign_batches_cover tree path pr_depth files) as (bs & Hrun & _).
  pose proof (assign_batches_depths _ _ _ _ Hrun) as Hdepths.
  assert (StronglySorted (λ b1 b2, batch_depth b2 ≤ batch_depth b1) bs) as Hsorted.
  { destruct (traverse_repo_keys tree path pr_depth) as [n Hkeys].
    pose proof (dispatch_order_sorted (Traverse.traverse_repo tree path pr_depth))
      as Hord.
    unfold Traverse.keys in Hkeys. rewrite Hkeys, <- Hdepths in Hord.
    specialize (Hord (seq_strongly_sorted n 0)).
    clear -Hord. induction bs as [|b bs IH]; [constructor|].
    simpl in Hord. apply StronglySorted_inv in Hord as [Hbs Hall].
    constructor; [by apply IH|].
    rewrite Forall_fmap in Hall. eapply Forall_impl; [exact Hall|].
    intros b' Hb'. simpl in Hb'. lia. }
  assert (∃ root_files, last bs = Some (Batch 0 path root_files)) as [root_files Hlast].
  { unfold assign_batches in Hrun.
    destruct (assign_all_concat Path_str
                (dispatch_order (Traverse.traverse_repo tree path pr_depth)) files)
      as (bs' & final' & Hrun' & _ & Hord).
    rewrite Hrun in Hrun'. injection Hrun' as <- <-.
    destruct (traverse_repo_head tree path pr_depth) as (d & Hhead).
    rewrite Hhead in Hord. unfold dispatch_order in Hord.
    rewrite reverse_cons, flat_map_app in Hord. simpl in Hord.
    assert (last (List.map (λ b, (batch_depth b, batch_folder b)) bs)
            = Some (0, path)) as Hl.
    { rewrite Hord. apply last_snoc. }
    clear -Hl. induction bs as [|b bs IH]; [done|].
    destruct bs as [|b' bs]; [|by apply IH].
    simpl in Hl. injection Hl as Hd Hf. destruct b as [depth folder fs].
    simpl in *. subst. by exists fs. }
  exists bs, root_files. split_and!; try done.
  by apply filter_strongly_sorted.
Qed.

End BatchFacts.

(** C1. On Example A of the design document, with the queue in ascending
    file size, the loop of the folder [pkg] looks at [a.py] three times
    and takes nothing, although [pkg/b.py] and [pkg/sub/c.py] lie under
    [pkg]: both are passed over and end in the batch of the root, where
    the single-pass stable partition of the design document puts them in
    the batch of [pkg]. *)
Theorem assignment_passes_over_files_behind_the_head :
  Traverse.traverse_repo Demo.tree "." 1 = [(0, ["."]); (1, ["./pkg"])]
  ∧ Demo.by_size = ["a.py"; "pkg/b.py"; "pkg/sub/c.py"]
  ∧ assign_batches Posix.Path_str [(0, ["."]); (1, ["./pkg"])] Demo.by_size
  = inr ([Batch 1 "./pkg" [];
          Batch 0 "." ["a.py"; "pkg/b.py"; "pkg/sub/c.py"]], [])
  ∧ claims Posix.Path_str 1 "./pkg" "pkg/b.py" = true
  ∧ claims Posix.Path_str 1 "./pkg" "pkg/sub/c.py" = true
  ∧ stable_partition_spec Posix.Path_str
      (dispatch_order [(0, ["."]); (1, ["./pkg"])]) Demo.by_size
    = ([Batch 1 "./pkg" ["pkg/b.py"; "pkg/sub/c.py"];
        Batch 0 "." ["a.py"]], []).
Proof. vm_compute. done. Qed.

(** ** Change detection *)

Section HashFacts.

Variable E : Env.

Lemma compute_sha256_add_trace events w path :
  compute_sha256 E (add_trace events w) path = compute_sha256 E w path.
Proof. done. Qed.

Lemma add_trace_app l1 l2 w : add_trace l2 (add_trace l1 w) = add_trace (l1 ++ l2) w.
Proof. unfold add_trace. simpl. by rewrite app_assoc. Qed.

Lemma add_trace_nil w : add_trace [] w = w.
Proof. destruct w. unfold add_trace. simpl. by rewrite app_nil_r. Qed.

Lemma hash_test current (cached : option string) :
  bool_decide (Some current ≠ cached)
  = match cached with
    | Some cached_hash => negb (String.eqb current cached_hash)
    | None => true
    end.
Proof.
  destruct cached as [cached_hash|]; [|done].
  destruct (String.eqb_spec current cached_hash) as [->|Hne]; simpl.
  - apply bool_decide_eq_false_2. by intros Hneq.
  - apply bool_decide_eq_true_2. congruence.
Qed.

Lemma hash_loop repo_path cache file_paths : ∀ changed_files events w,
  fold_left (hash_step E repo_path cache) file_paths (changed_files, add_trace events w)
  = (changed_files ++ List.filter (hash_changed E repo_path cache w) file_paths,
     add_trace (events ++ unreadable_log E w file_paths) w).
Proof.
  induction file_paths as [|f rest IH]; intros changed_files events w; simpl.
  - by rewrite !app_nil_r.
  - unfold hash_step at 1, hash_changed at 1. rewrite compute_sha256_add_trace.
    destruct (compute_sha256 E w f) as [current|] eqn:Hread.
    + rewrite hash_test.
      destruct (cache !! relpath E f repo_path) as [cached_hash|].
      * destruct (negb (String.eqb current cached_hash)); rewrite IH; [|done].
        by rewrite <- app_assoc.
      * rewrite IH. by rewrite <- app_assoc.
    + unfold log, emit. fold (add_trace [Log ERROR ("Error verifying hash for " +:+ f)]
                                (add_trace events w)).
      rewrite add_trace_app, IH. by rewrite <- app_assoc.
Qed.

(** The whole result of [filter_files_by_hash]. *)
Lemma filter_files_by_hash_eq file_paths repo_path cache w :
  filter_files_by_hash E file_paths repo_path cache w
  = (List.filter (hash_changed E repo_path cache w) file_paths,
     add_trace ([Log INFO "Starting file hash verification..."]
                  ++ unreadable_log E w file_paths
                  ++ [Log INFO "Hash verification completed."]) w).
Proof.
  unfold filter_files_by_hash, log, emit.
  fold (add_trace [Log INFO "Starting file hash verification..."] w).
  rewrite hash_loop. simpl.
  unfold add_trace. simpl. by rewrite <- !app_assoc.
Qed.

Lemma hash_changed_iff repo_path cache w file_path :
  hash_changed E repo_path cache w file_path = true
  ↔ ∃ current_hash,
      compute_sha256 E w file_path = Some current_hash
      ∧ cache !! relpath E file_path repo_path ≠ Some current_hash.
Proof.
  unfold hash_changed.
  destruct (compute_sha256 E w file_path) as [current|]; [|split; [done | by intros [? [? _]]]].
  rewrite <- hash_test, bool_decide_eq_true. split.
  - intros Hne. exists current. split; [done | congruence].
  - intros (current' & [= <-] & Hne). congruence.
Qed.

Lemma unreadable_logged w file_paths file_path :
  file_path ∈ file_paths →
  compute_sha256 E w file_path = None →
  Log ERROR ("Error verifying hash for " +:+ file_path) ∈ unreadable_log E w file_paths.
Proof.
  intros Hin Hread. unfold unreadable_log. apply list_elem_of_omap.
  exists file_path. split; [done|]. by rewrite Hread.
Qed.

(** C6. [filter_files_by_hash] returns, in their order, exactly the input
    files that can be read and whose current hash differs from the hash
    cached for their relative path, or whose relative path has no cached
    hash. A file that cannot be read is not returned and gets an error
    line in the log. Nothing but the log changes. *)
Theorem filter_files_by_hash_changed
    (file_paths : list string) (repo_path : string) (hashes : gmap string string)
    (w : world) :
  let result := filter_files_by_hash E file_paths repo_path hashes w in
  fst result = List.filter (hash_changed E repo_path hashes w) file_paths
  ∧ (∀ file_path,
       file_path ∈ fst result
       ↔ file_path ∈ file_paths
         ∧ ∃ current_hash,
             compute_sha256 E w file_path = Some current_hash
             ∧ hashes !! relpath E file_path repo_path ≠ Some current_hash)
  ∧ (∀ file_path,
       file_path ∈ file_paths →
       compute_sha256 E w file_path = None →
       (file_path ∉ fst result)
       ∧ Log ERROR ("Error verifying hash for " +:+ file_path) ∈ trace (snd result))
  ∧ fs (snd result) = fs w
  ∧ cache (snd result) = cache w
  ∧ context_summary (snd result) = context_summary w.
Proof.
  rewrite filter_files_by_hash_eq. simpl.
  assert (∀ file_path,
            file_path ∈ List.filter (hash_changed E repo_path hashes w) file_paths
            ↔ file_path ∈ file_paths
              ∧ ∃ current_hash,
                  compute_sha256 E w file_path = Some current_hash
                  ∧ hashes !! relpath E file_path repo_path ≠ Some current_hash)
    as Hmem.
  { intros f. rewrite list_elem_of_In, filter_In, <- list_elem_of_In.
    by rewrite hash_changed_iff. }
  split_and!; try done.
  intros f Hin Hread. split.
  - rewrite Hmem. intros [_ (current & Hsome & _)]. congruence.
  - apply elem_of_app. right. apply elem_of_cons. right.
    apply elem_of_app. left. by apply unreadable_logged.
Qed.

End HashFacts.

(** ** The context summary *)

Section ContextFacts.

Variable E : Env.

(** [str(Path(_))] leaves a normalized path as it is. *)
Hypothesis Path_str_idempotent : ∀ s, Path_str E (Path_str E s) = Path_str E s.

Lemma has_entry_false relative_path summary :
  has_entry E relative_path summary = false →
  relative_path ∉ summary_paths E summary.
Proof.
  unfold has_entry, summary_paths. intros Hnone Hin.
  apply list_elem_of_fmap in Hin as [e [-> Hin]].
  assert (existsb (λ e0, String.eqb (Path_str E (entry_file e0))
                                    (Path_str E (entry_file e))) summary = true)
    as Hsome; [|congruence].
  apply existsb_exists. exists e. split; [by apply list_elem_of_In|].
  apply String.eqb_refl.
Qed.

(** One step appends at most one entry, and only for a path that has no
    entry yet. *)
Lemma describe_step_context repo_path descriptions w file :
  context_summary (snd (describe_step E repo_path (descriptions, w) file))
  = context_summary w
  ∨ ∃ description,
      context_summary (snd (describe_step E repo_path (descriptions, w) file))
      = context_summary w ++ [Entry (Path_str E (relpath E file repo_path)) description]
      ∧ Path_str E (relpath E file repo_path) ∉ summary_paths E (context_summary w).
Proof.
  unfold describe_step.
  destruct (has_entry E _ (context_summary w)) eqn:Hentry; [by left|].
  destruct (read_text w file) as [content|]; [|by left]. simpl.
  destruct (generate_file_description E content) as [description|]; [|by left].
  destruct (file_write E (description_file_path E file) description);
    [|by left..].
  right. exists description. split; [done|]. by apply has_entry_false.
Qed.

Lemma describe_step_nodup repo_path st file :
  NoDup (summary_paths E (context_summary (snd st))) →
  NoDup (summary_paths E (context_summary (snd (describe_step E repo_path st file)))).
Proof.
  destruct st as [descriptions w]. intros Hnodup.
  destruct (describe_step_context repo_path descriptions w file)
    as [Heq|(description & Heq & Hfresh)]; rewrite Heq; [done|].
  unfold summary_paths in *. rewrite map_app. simpl.
  rewrite Path_str_idempotent.
  apply NoDup_app. split; [done|]. split; [|apply NoDup_singleton].
  intros path Hin ->%list_elem_of_singleton. done.
Qed.

Lemma describe_loop_nodup repo_path files : ∀ st,
  NoDup (summary_paths E (context_summary (snd st))) →
  NoDup (summary_paths E
           (context_summary (snd (fold_left (describe_step E repo_path) files st)))).
Proof.
  induction files as [|file files IH]; intros st Hnodup; simpl; [done|].
  apply IH. by apply describe_step_nodup.
Qed.

Lemma describe_loop_extends repo_path files : ∀ st,
  context_summary (snd st)
  `prefix_of` context_summary (snd (fold_left (describe_step E repo_path) files st)).
Proof.
  induction files as [|file files IH]; intros [descriptions w];
    cbn [fold_left]; [done|].
  etrans; [|apply IH].
  destruct (describe_step_context repo_path descriptions w file)
    as [Heq|(description & Heq & _)]; rewrite Heq; [done|].
  by apply prefix_app_r.
Qed.

(** C9. A step of [process_file_descriptions] appends an entry only for a
    normalized relative path that has no entry yet; so a context summary
    with at most one entry per normalized path keeps that property
    through [process_file_descriptions], whatever the files and whatever
    the descriptions generated, and the entries it had stay in place. *)
Theorem context_summary_one_entry_per_path
    (files_to_process : list string) (repo_path : string) (w : world) :
  NoDup (summary_paths E (context_summary w)) →
  let w' := snd (process_file_descriptions E files_to_process repo_path w) in
  NoDup (summary_paths E (context_summary w'))
  ∧ context_summary w `prefix_of` context_summary w'
  ∧ ∀ descriptions w0 file,
      Path_str E (relpath E file repo_path) ∈ summary_paths E (context_summary w0) →
      describe_step E repo_path (descriptions, w0) file = (descriptions, w0).
Proof.
  intros Hnodup. unfold process_file_descriptions.
  pose proof (describe_loop_nodup repo_path files_to_process ([], w) Hnodup) as Hafter.
  pose proof (describe_loop_extends repo_path files_to_process ([], w)) as Hext.
  destruct (fold_left (describe_step E repo_path) files_to_process ([], w))
    as [descriptions w1].
  split_and!.
  - by destruct descriptions.
  - by destruct descriptions.
  - intros descriptions0 w0 file Hin. unfold describe_step.
    destruct (has_entry E _ (context_summary w0)) eqn:Hentry; [done|].
    by apply has_entry_false in Hentry.
Qed.

End ContextFacts.

(** ** Applying a proposed change *)

Section ApplyFacts.

Variable E : Env.

(** The [manual] flag plays no part in [approve_and_save_file]. *)
Lemma approve_and_save_file_ignores_manual
    new_file_content original_code python_file_path repo_path w :
  approve_and_save_file E new_file_content original_code python_file_path
    repo_path true w
  = approve_and_save_file E new_file_content original_code python_file_path
      repo_path false w.
Proof. reflexivity. Qed.

(** Whatever the arguments, [approve_and_save_file] puts no question to
    the user. *)
Lemma approve_and_save_file_asks_nothing
    new_file_content original_code python_file_path repo_path manual w :
  ∃ events,
    trace (snd (approve_and_save_file E new_file_content original_code
                  python_file_path repo_path manual w))
    = trace w ++ events
    ∧ List.filter is_question events = [].
Proof.
  unfold approve_and_save_file.
  destruct (negb (Py.truthy _)); [by eexists [_]|].
  destruct (ensure_docstring_header E _) as [content|]; [|by eexists [_]].
  destruct (create_backup E python_file_path); [|by eexists [_]].
  destruct (file_write E python_file_path content).
  - destruct (compute_sha256 E _ python_file_path).
    + eexists [_; _; _; _]. simpl. by rewrite <- !app_assoc.
    + eexists [_; _; _; _]. simpl. by rewrite <- !app_assoc.
  - eexists [_; _]. simpl. by rewrite <- app_assoc.
  - eexists [_; _; _]. simpl. by rewrite <- !app_assoc.
Qed.

(** C10. With the empty string as proposed content,
    [approve_and_save_file] returns [False] and only writes a line to the
    log: no backup, no write, and the files on disk, the cache and the
    context summary are what they were before the call. *)
Theorem approve_and_save_file_empty_content
    (original_code python_file_path repo_path : string) (manual : bool) (w : world) :
  let result :=
    approve_and_save_file E "" original_code python_file_path repo_path manual w in
  fst result = false
  ∧ snd result = log INFO ("No changes made to " +:+ python_file_path +:+ ".") w
  ∧ fs (snd result) = fs w
  ∧ cache (snd result) = cache w
  ∧ context_summary (snd result) = context_summary w
  ∧ List.filter is_write (trace (snd result)) = List.filter is_write (trace w).
Proof.
  simpl. split_and!; try done.
  rewrite List.filter_app. simpl. by rewrite app_nil_r.
Qed.

End ApplyFacts.

(** C4. Manual mode with a user who would answer no to every question:
    the proposed content for [a.py] is nevertheless backed up and written,
    the cache is updated and the call returns [True], without a single
    question in the trace; the same holds for [process_single_file], which
    hands the proposal of the assistant to [approve_and_save_file]. *)
Theorem manual_mode_applies_without_asking :
  let E := Demo.rejecting (Demo.env Demo.by_size) in
  let applied :=
    approve_and_save_file E "x = 1  # documented" Demo.a_py "a.py" "." true
      Demo.start in
  let processed := process_single_file E "a.py" "." true Demo.start in
  prompt_user_confirmation E "Apply the changes to a.py?" = false
  ∧ fst applied = true
  ∧ fs (snd applied) !! "a.py" = Some "# header x = 1  # documented"
  ∧ cache (snd applied) !! "a.py" = Some "sha256(# header x = 1  # documented)"
  ∧ List.filter is_write (trace (snd applied))
    = [BackedUp "a.py"; Wrote "a.py" "# header x = 1  # documented"]
  ∧ List.filter is_question (trace (snd applied)) = []
  ∧ fs processed !! "a.py" = Some "# header # documented x = 1"
  ∧ List.filter is_question (trace processed) = [].
Proof. vm_compute. done. Qed.

(** ** The run *)

Section RunFacts.

Variable E : Env.
Variable a : run_args.


(** With an empty queue every folder is skipped. *)
Lemma dispatch_empty_queue git_present order : ∀ w,
  ∃ events,
    dispatch E a git_present order [] w = (Returned, add_trace events w)
    ∧ forallb is_log events = true.
Proof.
  induction order as [|[depth folder] order IH]; intros w.
  - by exists [Log INFO "All folders processed successfully."].
  - cbn [dispatch]. unfold process_folder, assign_folder. cbn [length assign_loop].
    destruct (IH (log INFO ("No Python files found in folder '" +:+ folder
                            +:+ "'. Skipping.")
                    (log INFO ("Processing folder '" +:+ folder +:+ "'...") w)))
      as (events & -> & Hlogs).
    eexists (_ :: _ :: events). split.
    + unfold add_trace, log, emit. simpl. by rewrite <- !app_assoc.
    + exact Hlogs.
Qed.

Lemma up_to_date_unchanged repo w files :
  forallb (up_to_date E repo w) files = true →
  List.filter (hash_changed E repo (cache w) w) files = []
  ∧ unreadable_log E w files = [].
Proof.
  induction files as [|f files IH]; simpl; [done|].
  intros [Hf Hrest]%andb_true_iff. destruct (IH Hrest) as [IH1 IH2].
  unfold up_to_date, hash_changed in *.
  destruct (compute_sha256 E w f) as [current|]; [|done].
  destruct (cache w !! relpath E f repo) as [cached|]; [|done].
  rewrite Hf. simpl. done.
Qed.

(** C8. Idempotence: when every Python file of the repository can be read
    and its current hash is the hash the cache holds for it, the run
    returns normally and does nothing but write to the log: the files on
    disk, the cache and the context summary are unchanged, no file is
    backed up or written, the assistant is not called and no pull request
    is opened. *)
Theorem unchanged_repository_run_is_idle (w : world) :
  forallb (up_to_date E (repo_path a) w) (python_files_sorted E (repo_path a)) = true →
  ∃ events,
    process_files_and_create_prs E a w = (Returned, add_trace events w)
    ∧ forallb is_log events = true
    ∧ List.filter is_write events = []
    ∧ List.filter is_pull_request events = []
    ∧ List.filter is_annotation events = [].
Proof.
  intros Hsame.
  assert (∃ events, process_files_and_create_prs E a w = (Returned, add_trace events w)
                    ∧ forallb is_log events = true) as (events & Hrun & Hlogs).
  { unfold process_files_and_create_prs.
    set (w0 := if check_git_repo E (repo_path a) then w else _).
    assert (∃ pre, w0 = add_trace pre w ∧ forallb is_log pre = true)
      as (pre & Hw0 & Hpre).
    { subst w0. destruct (check_git_repo E (repo_path a)).
      - exists []. by rewrite add_trace_nil.
      - by eexists [_]. }
    destruct (assistant_ready E); simpl.
    2:{ rewrite Hw0. eexists (pre ++ [_]). split.
        - unfold log, emit, add_trace. simpl. by rewrite <- app_assoc.
        - rewrite forallb_app, Hpre. done. }
    rewrite filter_files_by_hash_eq.
    assert (cache w0 = cache w) as -> by (by rewrite Hw0).
    assert (∀ files, List.filter (hash_changed E (repo_path a) (cache w) w0) files
                     = List.filter (hash_changed E (repo_path a) (cache w) w) files)
      as -> by (by rewrite Hw0).
    assert (∀ files, unreadable_log E w0 files = unreadable_log E w files)
      as -> by (by rewrite Hw0).
    destruct (up_to_date_unchanged _ _ _ Hsame) as [-> ->].
    rewrite Hw0, add_trace_app.
    match goal with
    | |- context [dispatch E a ?g ?order [] ?w1] =>
        destruct (dispatch_empty_queue g order w1) as (post & -> & Hpost)
    end.
    unfold log, emit.
    exists (pre ++ [Log INFO "Starting file hash verification...";
                    Log INFO "Hash verification completed.";
                    Log INFO "No new file descriptions needed."] ++ post).
    split.
    - unfold add_trace. simpl. do 2 f_equal. by rewrite <- !app_assoc.
    - rewrite !forallb_app, Hpre, Hpost. done. }
  exists events. split_and!; try done.
  all: clear -Hlogs; induction events as [|e events IH]; [done|];
    simpl in Hlogs; apply andb_true_iff in Hlogs as [He Hrest];
    destruct e; try done; simpl; by apply IH.
Qed.

End RunFacts.

(** C3. A run with pull requests enabled over two non-empty batches, [pkg]
    and the root: after the files of [pkg] are processed and saved, the
    call of [create_github_pr], which passes no [folder], raises
    [TypeError] in [process_files_and_create_prs] itself; the exception
    ends the run, the batch of the root is never processed ([a.py] is
    neither offered to the assistant nor written) and no pull request is
    attempted. The same run without pull requests processes both
    batches. *)
Theorem pull_request_call_aborts_the_run :
  let E := Demo.env ["pkg/b.py"; "a.py"] in
  let with_pr := process_files_and_create_prs E (Demo.pr_run false) Demo.start in
  let without_pr := process_files_and_create_prs E Demo.local_run Demo.start in
  assign_batches (Path_str E) (traverse_repo E "." 1) ["pkg/b.py"; "a.py"]
  = inr ([Batch 1 "./pkg" ["pkg/b.py"]; Batch 0 "." ["a.py"]], [])
  ∧ fst with_pr
    = Raised (TypeError "create_github_pr() missing 1 required positional argument: 'folder'")
  ∧ List.filter is_write (trace (snd with_pr))
    = [Wrote "data/pkg/b.txt" "Describes: def b(): return 1";
       Wrote "data/a.txt" "Describes: x = 1";
       BackedUp "pkg/b.py";
       Wrote "pkg/b.py" "# header # documented def b(): return 1"]
  ∧ existsb (λ e, match e with Annotated "a.py" => true | _ => false end)
      (trace (snd with_pr)) = false
  ∧ List.filter is_pull_request (trace (snd with_pr)) = []
  ∧ fst without_pr = Returned
  ∧ fs (snd without_pr) !! "a.py" = Some "# header # documented x = 1".
Proof. vm_compute. done. Qed.

(** ** The entry point *)

Section MainFacts.

Variable E : Env.

(** The call in [main] supplies no [target_branch], so it never binds. *)
Lemma main_call_does_not_bind (s : settings) :
  bind_process_files_and_create_prs (main_call s)
  = inl (TypeError "process_files_and_create_prs() missing 1 required positional argument: 'target_branch'").
Proof. reflexivity. Qed.

(** [main] ends in one of five ways, none of which runs the processing. *)
Lemma main_outcomes process args w :
  fst (main_with E process args w) = Returned ∧ arg_help_flags args = true
  ∨ fst (main_with E process args w) = Exited 0
  ∨ fst (main_with E process args w) = Exited 1
  ∨ (∃ path, fst (main_with E process args w) = Raised (OSError path))
  ∨ fst (main_with E process args w)
    = Raised (TypeError "process_files_and_create_prs() missing 1 required positional argument: 'target_branch'").
Proof.
  unfold main_with, main_validate.
  destruct (arg_help_flags args); [by left|].
  destruct (if arg_no_cache args then handle_no_cache E args w else (None, w))
    as [[e|] w0] eqn:Hremoval.
  { right. right. right. left.
    destruct (arg_no_cache args); [|done]. unfold handle_no_cache in Hremoval.
    repeat (match type of Hremoval with
            | context [if ?b then _ else _] => destruct b
            | context [os_remove E ?f] => destruct (os_remove E f)
            end; simpl in Hremoval);
      try done; injection Hremoval as <- <-; by eexists. }
  unfold main_settle.
  destruct (negb (Py.truthy_opt _)); [by right; right; left|].
  destruct (negb (path_exists E _)); [by right; right; left|].
  destruct (choose_github_repo E args _) as [github_repo w1].
  destruct (negb (Py.truthy_opt github_repo)).
  - destruct (prompt_user_confirmation E _);
      [by right; right; right; right | by right; left].
  - destruct (negb (Py.truthy_opt _));
      [by right; right; left | by right; right; right; right].
Qed.

(** C2. Whenever [main] gets through its validation and reaches the call
    of [process_files_and_create_prs], the call raises [TypeError],
    because no [target_branch] is passed. The exception is raised while
    the arguments are bound, before the body of the function: the result
    is the same whatever function stands at the processing step, and the
    world is the one the validation left. *)
Theorem main_processing_call_raises
    (args : cli) (w : world) (s : settings) (w1 : world) :
  main_validate E args w = (inr s, w1) →
  main E args w
  = (Raised (TypeError "process_files_and_create_prs() missing 1 required positional argument: 'target_branch'"),
     w1)
  ∧ ∀ process, main_with E process args w = main E args w.
Proof.
  intros Hvalid. unfold main, main_with. rewrite Hvalid.
  by rewrite main_call_does_not_bind.
Qed.

End MainFacts.

(** ** The token budget *)

Section BudgetFacts.

Variable E : Env.

(** The tokenizer of the model. *)
Variable tokens : string → nat.

(** The two budgets agree exactly on a content that has as many tokens as
    characters. *)
Lemma few_shot_budget_token_budget (file_content : string) :
  few_shot_budget E file_content = token_budget_spec E tokens file_content
  ↔ tokens file_content = Py.len file_content.
Proof. unfold few_shot_budget, token_budget_spec. lia. Qed.



End BudgetFacts.


(** ** Normal form of POSIX paths *)

Section PosixFacts.

Import Posix.

Lemma append_cons c s t : String c s +:+ t = String c (s +:+ t).
Proof. reflexivity. Qed.

Lemma append_empty_r s : s +:+ "" = s.
Proof. induction s as [|c s IH]; [done|]. rewrite append_cons. by f_equal. Qed.

Lemma append_assoc s1 s2 s3 : (s1 +:+ s2) +:+ s3 = s1 +:+ (s2 +:+ s3).
Proof. induction s1 as [|c s1 IH]; [done|]. rewrite !append_cons. by f_equal. Qed.

Lemma no_slash_append s1 s2 :
  no_slash (s1 +:+ s2) = no_slash s1 && no_slash s2.
Proof.
  induction s1 as [|c s1 IH]; simpl; [done|]. rewrite IH. by rewrite andb_assoc.
Qed.

Lemma split_from_no_slash s : ∀ cur,
  no_slash cur = true → Forall (λ p, no_slash p = true) (split_from cur s).
Proof.
  induction s as [|c s IH]; intros cur Hcur; simpl.
  - by constructor.
  - destruct (Ascii.eqb c slash) eqn:Hc.
    + constructor; [done | by apply IH].
    + apply IH. rewrite no_slash_append, Hcur. simpl. by rewrite Hc.
Qed.

Lemma parts_components s : Forall (λ p, component p = true) (parts s).
Proof.
  unfold parts, split. apply Forall_forall. intros p Hp.
  apply list_elem_of_In, filter_In in Hp as [Hin Hkept].
  unfold component. rewrite Hkept, andb_true_r.
  pose proof (split_from_no_slash s "" eq_refl) as Hall.
  rewrite Forall_forall in Hall. apply Hall. by apply list_elem_of_In.
Qed.

(** Reading a component moves it to the component read so far. *)
Lemma split_from_component p : ∀ cur rest,
  no_slash p = true → split_from cur (p +:+ rest) = split_from (cur +:+ p) rest.
Proof.
  induction p as [|c p IH]; intros cur rest Hp; simpl.
  - by rewrite append_empty_r.
  - simpl in Hp. apply andb_true_iff in Hp as [Hc Hp].
    apply negb_true_iff in Hc. rewrite Hc.
    rewrite IH by done. by rewrite append_assoc.
Qed.

Lemma split_join ps :
  ps ≠ [] → Forall (λ p, component p = true) ps → split (join_slash ps) = ps.
Proof.
  unfold split. induction ps as [|p ps IH]; intros Hne Hall; [done|].
  apply Forall_cons in Hall as [Hp Hall].
  apply andb_true_iff in Hp as [Hp _].
  destruct ps as [|q ps].
  - simpl. rewrite <- (append_empty_r p) at 1.
    by rewrite split_from_component.
  - change (join_slash (p :: q :: ps)) with (p +:+ "/" +:+ join_slash (q :: ps)).
    rewrite split_from_component by done. simpl.
    f_equal. by apply IH.
Qed.

Lemma filter_components ps :
  Forall (λ p, component p = true) ps → List.filter kept ps = ps.
Proof.
  induction 1 as [|p ps Hp _ IH]; simpl; [done|].
  apply andb_true_iff in Hp as [_ ->]. by rewrite IH.
Qed.

(** A path made of components starts with no ["/"]. *)
Lemma leading_slashes_join ps :
  Forall (λ p, component p = true) ps → leading_slashes (join_slash ps) = 0.
Proof.
  intros Hall. destruct Hall as [|p ps Hp _]; [done|].
  apply andb_true_iff in Hp as [Hslash Hkept].
  destruct p as [|c p]; [done|].
  simpl in Hslash. apply andb_true_iff in Hslash as [Hc _].
  apply negb_true_iff in Hc.
  destruct ps; simpl; by rewrite Hc.
Qed.

Lemma root_cases s : root s = "" ∨ root s = "/" ∨ root s = "//".
Proof.
  unfold root. destruct (leading_slashes s) as [|[|[|n]]]; auto.
Qed.

Lemma append_empty_l s : "" +:+ s = s.
Proof. reflexivity. Qed.

Lemma parts_root_join r ps :
  r = "" ∧ ps ≠ [] ∨ r = "/" ∨ r = "//" →
  Forall (λ p, component p = true) ps →
  parts (r +:+ join_slash ps) = ps ∧ root (r +:+ join_slash ps) = r.
Proof.
  intros Hr Hall.
  pose proof (leading_slashes_join ps Hall) as Hlead.
  assert (ps = [] ∨ ps ≠ []) as Hps by (destruct ps; auto).
  assert (parts (join_slash ps) = ps) as Hparts.
  { unfold parts. destruct Hps as [->|Hne]; [done|].
    rewrite split_join by done. by apply filter_components. }
  assert (∀ s, parts (String slash s) = parts s) as Hskip.
  { intros s. unfold parts, split. by cbn [split_from Ascii.eqb]. }
  unfold root.
  destruct Hr as [[-> Hne]|[-> | ->]];
    rewrite ?append_cons, ?append_empty_l; fold slash.
  - by rewrite Hlead.
  - rewrite Hskip. cbn [leading_slashes]. rewrite Ascii.eqb_refl, Hlead. done.
  - rewrite !Hskip. cbn [leading_slashes]. rewrite Ascii.eqb_refl, Hlead. done.
Qed.

(** [str(Path(_))] of a normalized path is the path itself. *)
Lemma Path_str_idempotent s : Path_str (Path_str s) = Path_str s.
Proof.
  pose proof (parts_components s) as Hall.
  destruct (root_cases s) as [Hr|Hr].
  - destruct (parts s) as [|p ps] eqn:Hparts.
    + assert (Path_str s = ".") as ->; [|done].
      unfold Path_str. by rewrite Hr, Hparts.
    + assert (Path_str s = "" +:+ join_slash (p :: ps)) as ->.
      { unfold Path_str. rewrite Hr, Hparts. simpl.
        apply Forall_cons in Hall as [Hp _].
        apply andb_true_iff in Hp as [_ Hkept].
        destruct p; [done|]. by destruct ps. }
      destruct (parts_root_join "" (p :: ps)) as [Hparts' Hroot']; [by left | done|].
      unfold Path_str. rewrite Hparts', Hroot'.
      apply Forall_cons in Hall as [Hp _].
      apply andb_true_iff in Hp as [_ Hkept].
      destruct p; [done|]. by destruct ps.
  - assert (Path_str s = root s +:+ join_slash (parts s)) as ->.
    { unfold Path_str. by destruct Hr as [-> | ->]. }
    destruct (parts_root_join (root s) (parts s)) as [Hparts' Hroot']; [by right | done|].
    unfold Path_str. rewrite Hparts', Hroot'. by destruct Hr as [-> | ->].
Qed.

End PosixFacts.

(** ** Instances *)


Lemma main_processing_call_raises_witness :
  let E := Demo.env Demo.by_size in
  let reached := main_validate E Demo.command_line Demo.start in
  reached
  = (inr (Settings "." "key" None None "feature/docstring-updates-20240101000000"
                   "-- Add docstrings for files in `.`" 1 false),
     snd reached)
  ∧ main E Demo.command_line Demo.start
    = (Raised (TypeError "process_files_and_create_prs() missing 1 required positional argument: 'target_branch'"),
       snd reached)
  ∧ ∀ process,
      main_with E process Demo.command_line Demo.start
      = main E Demo.command_line Demo.start.
Proof.
  split; [reflexivity|].
  apply (main_processing_call_raises (Demo.env Demo.by_size) Demo.command_line
           Demo.start
           (Settings "." "key" None None "feature/docstring-updates-20240101000000"
                     "-- Add docstrings for files in `.`" 1 false)
           (snd (main_validate (Demo.env Demo.by_size) Demo.command_line Demo.start))).
  reflexivity.
Defined.

Lemma unchanged_repository_run_is_idle_witness :
  let E := Demo.env Demo.by_size in
  forallb (up_to_date E "." Demo.settled) (python_files_sorted E ".") = true
  ∧ ∃ events,
      process_files_and_create_prs E (Demo.pr_run false) Demo.settled
      = (Returned, add_trace events Demo.settled)
      ∧ forallb is_log events = true
      ∧ List.filter is_write events = []
      ∧ List.filter is_pull_request events = []
      ∧ List.filter is_annotation events = [].
Proof.
  split; [by vm_compute|].
  apply (unchanged_repository_run_is_idle (Demo.env Demo.by_size) (Demo.pr_run false)
           Demo.settled).
  by vm_compute.
Defined.


Lemma context_summary_one_entry_per_path_witness :
  let E := Demo.env Demo.by_size in
  NoDup (summary_paths E (context_summary Demo.settled))
  ∧ let w' := snd (process_file_descriptions E Demo.by_size "." Demo.settled) in
    NoDup (summary_paths E (context_summary w'))
    ∧ context_summary Demo.settled `prefix_of` context_summary w'
    ∧ ∀ descriptions w0 file,
        Path_str E (relpath E file ".") ∈ summary_paths E (context_summary w0) →
        describe_step E "." (descriptions, w0) file = (descriptions, w0).
Proof.
  split; [apply NoDup_singleton|].
  apply (context_summary_one_entry_per_path (Demo.env Demo.by_size)
           Path_str_idempotent Demo.by_size "." Demo.settled).
  apply NoDup_singleton.
Defined.


(** * Further properties of the code *)

(** ** The assignment loop, in general *)

Section AssignmentMore.

Variable Path_str : string → string.

Lemma leading_claimed depth folder queue :
  Forall (λ f, claims Path_str depth folder f = true) (leading Path_str depth folder queue).
Proof.
  induction queue as [|f rest IH]; simpl; [done|].
  destruct (claims Path_str depth folder f) eqn:Hf; [|done]. by constructor.
Qed.

Lemma behind_head depth folder queue f rest :
  behind Path_str depth folder queue = f :: rest →
  claims Path_str depth folder f = false.
Proof.
  induction queue as [|g queue IH]; simpl; [done|].
  destruct (claims Path_str depth folder g) eqn:Hg; [done|].
  by intros [= <- _].
Qed.

(** X1. For one folder the loop never raises: it takes the longest run of
    files at the front of the queue that the folder claims, in order, and
    leaves the rest of the queue as it is, starting with the first file
    the folder does not claim. *)
Theorem assign_folder_takes_front_run (depth : nat) (folder : string)
    (queue : list string) :
  ∃ batch rest,
    assign_folder Path_str depth folder queue = inr (rest, batch)
    ∧ batch ++ rest = queue
    ∧ Forall (λ f, claims Path_str depth folder f = true) batch
    ∧ ∀ f rest', rest = f :: rest' → claims Path_str depth folder f = false.
Proof.
  exists (leading Path_str depth folder queue), (behind Path_str depth folder queue).
  split_and!.
  - apply assign_folder_leading.
  - apply leading_behind.
  - apply leading_claimed.
  - intros f rest'. apply behind_head.
Qed.

Lemma filter_claimed depth folder l :
  Forall (λ f, claims Path_str depth folder f = true) l →
  List.filter (claims Path_str depth folder) l = l.
Proof.
  induction 1 as [|f l Hf _ IH]; simpl; [done|]. by rewrite Hf, IH.
Qed.

(** X2. The batch of a folder is the single-pass stable partition of the
    queue (all the files the folder claims) exactly when no file the
    folder claims is left behind the first file it does not claim. *)
Theorem assign_folder_is_partition_iff (depth : nat) (folder : string)
    (queue : list string) :
  ∃ batch rest,
    assign_folder Path_str depth folder queue = inr (rest, batch)
    ∧ (batch = List.filter (claims Path_str depth folder) queue
       ↔ List.filter (claims Path_str depth folder) rest = []).
Proof.
  exists (leading Path_str depth folder queue), (behind Path_str depth folder queue).
  split; [apply assign_folder_leading|].
  rewrite <- (leading_behind Path_str depth folder queue) at 2.
  rewrite List.filter_app, (filter_claimed _ _ _ (leading_claimed depth folder queue)).
  split.
  - intros Heq. rewrite <- (app_nil_r (leading _ _ _ _)) in Heq at 1.
    by apply app_inv_head in Heq.
  - intros ->. by rewrite app_nil_r.
Qed.


(** X4. A head of the queue that lies under none of the deeper folders
    blocks all of them: every deeper folder gets an empty batch and the
    whole queue goes to the root, wherever the other files lie. *)
Theorem blocked_head_sends_queue_to_root
    (deep : list (nat * string)) (root f : string) (rest : list string) :
  Forall (λ visit, claims Path_str (fst visit) (snd visit) f = false) deep →
  assign_all Path_str (deep ++ [(0, root)]) (f :: rest)
  = inr (List.map (λ visit, Batch (fst visit) (snd visit) []) deep
           ++ [Batch 0 root (f :: rest)], []).
Proof.
  induction 1 as [|[depth folder] deep Hf _ IH]; simpl in *.
  - rewrite assign_folder_leading, leading_root, behind_root. done.
  - rewrite assign_folder_leading. simpl. rewrite Hf.
    by rewrite IH.
Qed.

End AssignmentMore.

(** ** Change detection and applying a change *)

Section ApplyMore.

Variable E : Env.

(** X5. With an empty cache (a first run, or after [--no-cache]) every
    file that can be read is selected, in the order given, and only
    those. *)
Theorem empty_cache_selects_every_readable_file
    (file_paths : list string) (repo_path : string) (w : world) :
  fst (filter_files_by_hash E file_paths repo_path ∅ w)
  = List.filter (readable w) file_paths.
Proof.
  rewrite filter_files_by_hash_eq. simpl.
  induction file_paths as [|f rest IH]; simpl; [done|].
  rewrite IH. unfold hash_changed, readable, compute_sha256.
  rewrite lookup_empty. by destruct (fs w !! f).
Qed.

(** What a successful call of [approve_and_save_file] leaves behind. *)
Lemma approve_and_save_file_success
    new_file_content original_code python_file_path repo_path manual w :
  fst (approve_and_save_file E new_file_content original_code python_file_path
         repo_path manual w) = true →
  ∃ content,
    ensure_docstring_header E (Py.replace "` ``" "```" new_file_content) = Some content
    ∧ snd (approve_and_save_file E new_file_content original_code python_file_path
             repo_path manual w)
      = World (<[python_file_path := content]> (fs w))
              (<[relpath E python_file_path repo_path := sha256 E content]> (cache w))
              (context_summary w)
              (trace w ++ [BackedUp python_file_path;
                           Wrote python_file_path content;
                           Log INFO ("Updated docstrings in " +:+ python_file_path);
                           Log INFO ("Cache updated for " +:+ python_file_path)]).
Proof.
  unfold approve_and_save_file.
  destruct (negb (Py.truthy _)); [done|].
  destruct (ensure_docstring_header E _) as [content|]; [|done].
  destruct (create_backup E python_file_path); [|done].
  destruct (file_write E python_file_path content); [|done..]. simpl.
  unfold compute_sha256. simpl. rewrite lookup_insert_eq. simpl.
  intros _. exists content. split; [done|].
  unfold log, emit, set_cache. simpl. by rewrite <- !app_assoc.
Qed.

(** X6. A file that [approve_and_save_file] has applied is up to date
    for the next change detection: its hash on disk is the cached one, so
    [filter_files_by_hash] run with the updated cache does not select it
    again. *)
Theorem applied_file_is_not_selected_again
    (new_file_content original_code python_file_path repo_path : string)
    (manual : bool) (w : world) :
  fst (approve_and_save_file E new_file_content original_code python_file_path
         repo_path manual w) = true →
  let w' := snd (approve_and_save_file E new_file_content original_code
                   python_file_path repo_path manual w) in
  up_to_date E repo_path w' python_file_path = true
  ∧ fst (filter_files_by_hash E [python_file_path] repo_path (cache w') w') = [].
Proof.
  intros Happlied.
  destruct (approve_and_save_file_success _ _ _ _ _ _ Happlied)
    as (content & _ & ->).
  simpl. rewrite filter_files_by_hash_eq. simpl.
  unfold up_to_date, hash_changed, compute_sha256. simpl.
  rewrite !lookup_insert_eq. simpl. by rewrite String.eqb_refl.
Qed.

(** X7. When [approve_and_save_file] returns [True], the file holds the
    proposed content after the repair of the code fences and with the
    header ensured, the cache maps the relative path of the file to the
    hash of that content, [create_backup] was called on the file before
    the write, and every other cache entry and the context summary are as
    before. *)
Theorem approve_and_save_file_applies_one_file
    (new_file_content original_code python_file_path repo_path : string)
    (manual : bool) (w : world) :
  fst (approve_and_save_file E new_file_content original_code python_file_path
         repo_path manual w) = true →
  let w' := snd (approve_and_save_file E new_file_content original_code
                   python_file_path repo_path manual w) in
  ∃ content,
    ensure_docstring_header E (Py.replace "` ``" "```" new_file_content) = Some content
    ∧ fs w' !! python_file_path = Some content
    ∧ cache w' !! relpath E python_file_path repo_path = Some (sha256 E content)
    ∧ List.filter is_write (trace w')
      = List.filter is_write (trace w)
          ++ [BackedUp python_file_path; Wrote python_file_path content]
    ∧ (∀ key, key ≠ relpath E python_file_path repo_path →
              cache w' !! key = cache w !! key)
    ∧ context_summary w' = context_summary w.
Proof.
  intros Happlied.
  destruct (approve_and_save_file_success _ _ _ _ _ _ Happlied)
    as (content & Hheader & ->).
  exists content. simpl. split_and!; try done.
  - apply lookup_insert_eq.
  - apply lookup_insert_eq.
  - by rewrite List.filter_app.
  - intros key Hne. by rewrite lookup_insert_ne.
Qed.

(** X8. When [approve_and_save_file] returns [False] it has updated
    neither the cache nor the context summary. The file keeps its content
    unless the write was started and failed: then the file holds what the
    failed write left, after [create_backup] was called on it, and the
    cache still has the hash it had. *)
Theorem approve_and_save_file_failure_keeps_cache
    (new_file_content original_code python_file_path repo_path : string)
    (manual : bool) (w : world) :
  let result := approve_and_save_file E new_file_content original_code
                  python_file_path repo_path manual w in
  fst result = false →
  cache (snd result) = cache w
  ∧ context_summary (snd result) = context_summary w
  ∧ ∃ events,
      trace (snd result) = trace w ++ events
      ∧ ((∀ remains, Wrote python_file_path remains ∉ events) →
         fs (snd result) !! python_file_path = fs w !! python_file_path)
      ∧ (∀ remains, Wrote python_file_path remains ∈ events →
         fs (snd result) !! python_file_path = Some remains
         ∧ BackedUp python_file_path ∈ events).
Proof.
  unfold approve_and_save_file.
  destruct (negb (Py.truthy _)).
  { intros _. split_and!; try done. eexists [_]. split_and!; try done.
    intros remains Hin. set_solver. }
  destruct (ensure_docstring_header E _) as [content|].
  2:{ intros _. split_and!; try done. eexists [_]. split_and!; try done.
      intros remains Hin. set_solver. }
  destruct (create_backup E python_file_path).
  2:{ intros _. split_and!; try done. eexists [_]. split_and!; try done.
      intros remains Hin. set_solver. }
  destruct (file_write E python_file_path content) as [| |left_over].
  - simpl. unfold compute_sha256. simpl. by rewrite lookup_insert_eq.
  - intros _. split_and!; try done. eexists [_; _]. split_and!.
    + simpl. by rewrite <- app_assoc.
    + done.
    + intros remains Hin. set_solver.
  - intros _. split_and!; try done. eexists [_; _; _]. split_and!.
    + simpl. by rewrite <- !app_assoc.
    + intros Hnone. exfalso. apply (Hnone left_over). set_solver.
    + intros remains Hin. simpl. rewrite lookup_insert_eq.
      split; [|set_solver].
      apply elem_of_cons in Hin as [?|Hin]; [done|].
      apply elem_of_cons in Hin as [[= ->]|Hin]; [done|].
      apply elem_of_cons in Hin as [?|Hin]; [done|].
      by apply elem_of_nil in Hin.
Qed.

End ApplyMore.

(** ** One file at a time *)

Section FileMore.

Variable E : Env.

Lemma milestones_app l1 l2 : milestones (l1 ++ l2) = milestones l1 ++ milestones l2.
Proof. apply omap_app. Qed.

Lemma annotated_milestones events :
  annotated events
  = omap (λ m, match m with Offered path => Some path | _ => None end)
         (milestones events).
Proof.
  unfold annotated, milestones.
  induction events as [|e events IH]; [done|].
  destruct e; simpl; first [exact IH | f_equal; exact IH].
Qed.

Lemma annotated_app l1 l2 : annotated (l1 ++ l2) = annotated l1 ++ annotated l2.
Proof. apply omap_app. Qed.

(** The events a function added are written out; what is left is to
    compare them with the trace. *)
Ltac added events :=
  exists events; split; [simpl; by rewrite <- ?app_assoc|];
  split; [done|]; simpl;
  repeat first [ apply Forall_nil_2
               | apply Forall_cons; split; [first [by left | by right; eexists]|] ].

(** What [approve_and_save_file] keeps and what it records, whatever its
    result. *)
Lemma approve_and_save_file_frame
    new_file_content original_code python_file_path repo_path manual w :
  let w' := snd (approve_and_save_file E new_file_content original_code
                   python_file_path repo_path manual w) in
  context_summary w' = context_summary w
  ∧ (∀ key, key ≠ relpath E python_file_path repo_path →
            cache w' !! key = cache w !! key)
  ∧ ∃ events,
      trace w' = trace w ++ events
      ∧ milestones events = []
      ∧ Forall (writes_to python_file_path) (List.filter is_write events).
Proof.
  unfold approve_and_save_file.
  destruct (negb (Py.truthy _)).
  { split_and!; try done. added [Log INFO ("No changes made to " +:+ python_file_path +:+ ".")]. }
  destruct (ensure_docstring_header E _) as [content|].
  2:{ split_and!; try done.
      added [Log ERROR ("Error ensuring docstring header for " +:+ python_file_path)]. }
  destruct (create_backup E python_file_path).
  2:{ split_and!; try done.
      added [Log ERROR ("Error updating file " +:+ python_file_path)]. }
  destruct (file_write E python_file_path content) as [| |remains].
  - unfold compute_sha256. simpl. rewrite lookup_insert_eq. simpl.
    split_and!; try done.
    + intros key Hne. by rewrite lookup_insert_ne.
    + added [BackedUp python_file_path; Wrote python_file_path content;
             Log INFO ("Updated docstrings in " +:+ python_file_path);
             Log INFO ("Cache updated for " +:+ python_file_path)].
  - split_and!; try done.
    added [BackedUp python_file_path;
           Log ERROR ("Error updating file " +:+ python_file_path)].
  - split_and!; try done.
    added [BackedUp python_file_path; Wrote python_file_path remains;
           Log ERROR ("Error updating file " +:+ python_file_path)].
Qed.

(** What [process_single_file] keeps and what it adds to the progress of
    the run. *)
Lemma process_single_file_frame python_file_path repo_path manual w :
  let w' := process_single_file E python_file_path repo_path manual w in
  context_summary w' = context_summary w
  ∧ (∀ key, key ≠ relpath E python_file_path repo_path →
            cache w' !! key = cache w !! key)
  ∧ ∃ events,
      trace w' = trace w ++ events
      ∧ milestones events
        = (if readable_text w python_file_path then [Offered python_file_path] else [])
      ∧ Forall (writes_to python_file_path) (List.filter is_write events).
Proof.
  unfold process_single_file, readable_text.
  destruct (read_text w python_file_path) as [original_code|] eqn:Hread.
  2:{ rewrite bool_decide_eq_false_2 by (by intros [? ?]).
      split_and!; try done.
      added [Log ERROR ("Error reading file " +:+ python_file_path)]. }
  rewrite bool_decide_eq_true_2 by done.
  set (described :=
         match cached_entry E _ (context_summary w) with
         | Some item => _
         | None => _
         end).
  assert (∃ lvl msg, described.2 = log lvl msg w) as (lvl & msg & Hw0).
  { subst described. destruct (cached_entry E _ _); simpl; by eexists _, _. }
  destruct described as [file_description w0]. simpl in Hw0. subst w0.
  destruct (create_file_with_docstring E original_code _) as [| |new_file_content].
  - split_and!; try done.
    added [Log lvl msg; Annotated python_file_path;
           Log ERROR ("Failed to generate docstrings for " +:+ python_file_path)].
  - split_and!; try done.
    added [Log lvl msg; Annotated python_file_path;
           Log WARNING ("Docstrings not added for " +:+ python_file_path +:+ ".")].
  - pose proof (approve_and_save_file_frame new_file_content original_code
                  python_file_path repo_path manual
                  (emit (Annotated python_file_path) (log lvl msg w)))
      as (Hctx & Hcache & events & Htrace & Hmile & Hwrites).
    destruct (approve_and_save_file E _ _ _ _ _ _) as [result w1].
    simpl in Hctx, Hcache, Htrace.
    assert (∃ lvl' msg',
              (if result
               then log INFO ("Docstrings successfully added and saved for "
                              +:+ python_file_path +:+ ".") w1
               else log WARNING ("Docstrings not added for " +:+ python_file_path
                                 +:+ ".") w1)
              = log lvl' msg' w1) as (lvl' & msg' & ->).
    { destruct result; by eexists _, _. }
    simpl. split_and!; try done.
    exists ([Log lvl msg; Annotated python_file_path] ++ events ++ [Log lvl' msg']).
    split_and!.
    + rewrite Htrace. by rewrite <- !app_assoc.
    + rewrite !milestones_app, Hmile. done.
    + rewrite !List.filter_app. simpl. by rewrite app_nil_r.
Qed.

(** X9. [process_single_file] works on its file only: the only file it
    backs up or writes to is its own, the only cache entry it can change
    is that of the file's relative path, and it never changes the context
    summary. *)
Theorem process_single_file_touches_one_file
    (python_file_path repo_path : string) (manual : bool) (w : world) :
  let w' := process_single_file E python_file_path repo_path manual w in
  context_summary w' = context_summary w
  ∧ (∀ key, key ≠ relpath E python_file_path repo_path →
            cache w' !! key = cache w !! key)
  ∧ ∃ events,
      trace w' = trace w ++ events
      ∧ Forall (writes_to python_file_path) (List.filter is_write events).
Proof.
  pose proof (process_single_file_frame python_file_path repo_path manual w)
    as (Hctx & Hcache & events & Htrace & _ & Hwrites).
  split_and!; try done. by exists events.
Qed.

(** X10. A file that cannot be read as text is not offered to the
    assistant: the world changes by one error line only. A file that can
    be read is offered once. *)
Theorem process_single_file_offers_readable_files
    (python_file_path repo_path : string) (manual : bool) (w : world) :
  let w' := process_single_file E python_file_path repo_path manual w in
  annotated (trace w')
  = annotated (trace w)
    ++ (if readable_text w python_file_path then [python_file_path] else [])
  ∧ (readable_text w python_file_path = false →
     w' = log ERROR ("Error reading file " +:+ python_file_path) w).
Proof.
  split.
  - pose proof (process_single_file_frame python_file_path repo_path manual w)
      as (_ & _ & events & Htrace & Hmile & _).
    simpl in Htrace. rewrite Htrace, annotated_app. f_equal.
    rewrite (annotated_milestones events), Hmile.
    by destruct (readable_text w python_file_path).
  - unfold process_single_file, readable_text.
    destruct (read_text w python_file_path); [|done].
    intros Hfalse. apply bool_decide_eq_false in Hfalse. by destruct Hfalse.
Qed.

End FileMore.

(** ** Generating the descriptions *)

Section DescribeMore.

Variable E : Env.

Lemma has_entry_app relative_path l1 l2 :
  has_entry E relative_path (l1 ++ l2)
  = has_entry E relative_path l1 || has_entry E relative_path l2.
Proof. unfold has_entry. apply existsb_app. Qed.

(** What a step of the loop keeps. *)
Lemma describe_step_frame repo_path descriptions w file :
  let w' := snd (describe_step E repo_path (descriptions, w) file) in
  cache w' = cache w
  ∧ (∀ path, path ≠ description_file_path E file → fs w' !! path = fs w !! path)
  ∧ (∀ path, is_Some (fs w !! path) → is_Some (fs w' !! path))
  ∧ milestones (trace w') = milestones (trace w)
  ∧ trace w `prefix_of` trace w'
  ∧ context_summary w `prefix_of` context_summary w'.
Proof.
  unfold describe_step.
  destruct (has_entry E _ (context_summary w)); [done|].
  destruct (read_text w file) as [content|].
  2:{ simpl. rewrite milestones_app. simpl. rewrite app_nil_r.
      split_and!; try done. by apply prefix_app_r. }
  simpl. destruct (generate_file_description E content) as [description|].
  2:{ simpl. rewrite !milestones_app. simpl. rewrite !app_nil_r.
      split_and!; try done. rewrite <- app_assoc. by apply prefix_app_r. }
  destruct (file_write E (description_file_path E file) description)
    as [| |remains].
  - simpl. rewrite !milestones_app. simpl. rewrite !app_nil_r.
    split_and!; try done.
    + intros path Hne. by rewrite lookup_insert_ne.
    + intros path Hsome.
      destruct (decide (description_file_path E file = path)) as [->|Hne].
      * by rewrite lookup_insert_eq.
      * by rewrite lookup_insert_ne.
    + rewrite <- app_assoc. by apply prefix_app_r.
    + by apply prefix_app_r.
  - simpl. rewrite !milestones_app. simpl. rewrite !app_nil_r.
    split_and!; try done. rewrite <- app_assoc. by apply prefix_app_r.
  - simpl. rewrite !milestones_app. simpl. rewrite !app_nil_r.
    split_and!; try done.
    + intros path Hne. by rewrite lookup_insert_ne.
    + intros path Hsome.
      destruct (decide (description_file_path E file = path)) as [->|Hne].
      * by rewrite lookup_insert_eq.
      * by rewrite lookup_insert_ne.
    + rewrite <- !app_assoc. by apply prefix_app_r.
Qed.

Lemma describe_loop_frame repo_path files : ∀ descriptions w,
  let w' := snd (fold_left (describe_step E repo_path) files (descriptions, w)) in
  cache w' = cache w
  ∧ (∀ path, (∀ file, file ∈ files → path ≠ description_file_path E file) →
             fs w' !! path = fs w !! path)
  ∧ (∀ path, is_Some (fs w !! path) → is_Some (fs w' !! path))
  ∧ milestones (trace w') = milestones (trace w)
  ∧ trace w `prefix_of` trace w'
  ∧ context_summary w `prefix_of` context_summary w'.
Proof.
  induction files as [|file files IH]; intros descriptions w; cbn [fold_left]; [done|].
  pose proof (describe_step_frame repo_path descriptions w file)
    as (Hc & Hfs & Hdom & Hm & Ht & Hctx).
  destruct (describe_step E repo_path (descriptions, w) file) as [descriptions1 w1].
  simpl in *.
  destruct (IH descriptions1 w1) as (Hc' & Hfs' & Hdom' & Hm' & Ht' & Hctx').
  split_and!.
  - congruence.
  - intros path Hpath. rewrite Hfs', Hfs; [done| |].
    + apply Hpath. set_solver.
    + intros f Hf. apply Hpath. set_solver.
  - intros path Hsome. by apply Hdom', Hdom.
  - congruence.
  - by etrans.
  - by etrans.
Qed.

(** X11. [process_file_descriptions] never touches the cache, writes no
    file but the description files of the files it is given, removes no
    file, and only adds to the context summary. *)
Theorem process_file_descriptions_frame
    (files_to_process : list string) (repo_path : string) (w : world) :
  let w' := snd (process_file_descriptions E files_to_process repo_path w) in
  cache w' = cache w
  ∧ (∀ path,
       (∀ file, file ∈ files_to_process → path ≠ description_file_path E file) →
       fs w' !! path = fs w !! path)
  ∧ (∀ path, is_Some (fs w !! path) → is_Some (fs w' !! path))
  ∧ context_summary w `prefix_of` context_summary w'.
Proof.
  unfold process_file_descriptions.
  pose proof (describe_loop_frame repo_path files_to_process [] w)
    as (Hc & Hfs & Hdom & _ & _ & Hctx).
  destruct (fold_left (describe_step E repo_path) files_to_process ([], w))
    as [descriptions w1].
  by destruct descriptions.
Qed.

(** [str(Path(_))] leaves a normalized path as it is. *)
Hypothesis Path_str_stable : ∀ s, Path_str E (Path_str E s) = Path_str E s.

Lemma describe_step_outcome repo_path descriptions w file :
  let w' := snd (describe_step E repo_path (descriptions, w) file) in
  has_entry E (Path_str E (relpath E file repo_path)) (context_summary w') = true
  ∨ Log ERROR ("Failed to generate description for " +:+ file) ∈ trace w'.
Proof.
  unfold describe_step.
  destruct (has_entry E _ (context_summary w)) eqn:Hentry; [by left|].
  destruct (read_text w file) as [content|]; [|right; simpl; set_solver].
  simpl. destruct (generate_file_description E content) as [description|];
    [|right; simpl; set_solver].
  destruct (file_write E (description_file_path E file) description);
    [|right; simpl; set_solver..].
  left. simpl. rewrite has_entry_app. apply orb_true_iff. right.
  unfold has_entry. simpl. rewrite Path_str_stable, String.eqb_refl. done.
Qed.

Lemma has_entry_prefix relative_path l1 l2 :
  l1 `prefix_of` l2 → has_entry E relative_path l1 = true →
  has_entry E relative_path l2 = true.
Proof. intros [k ->] H1. by rewrite has_entry_app, H1. Qed.

Lemma describe_loop_outcome repo_path files : ∀ descriptions w file,
  file ∈ files →
  let w' := snd (fold_left (describe_step E repo_path) files (descriptions, w)) in
  has_entry E (Path_str E (relpath E file repo_path)) (context_summary w') = true
  ∨ Log ERROR ("Failed to generate description for " +:+ file) ∈ trace w'.
Proof.
  induction files as [|f files IH]; intros descriptions w file Hin;
    [by apply elem_of_nil in Hin|].
  cbn [fold_left].
  pose proof (describe_step_outcome repo_path descriptions w f) as Hstep.
  destruct (describe_step E repo_path (descriptions, w) f) as [descriptions1 w1].
  apply elem_of_cons in Hin as [->|Hin]; [|by apply IH].
  pose proof (describe_loop_frame repo_path files descriptions1 w1)
    as (_ & _ & _ & _ & Ht & Hctx).
  simpl in *. destruct Hstep as [Hentry|Hlog].
  - left. by eapply has_entry_prefix.
  - right. destruct Ht as [k ->]. set_solver.
Qed.

(** X12. After [process_file_descriptions] every file it was given either
    has an entry in the context summary under its normalized relative
    path, or its failure is in the log. *)
Theorem process_file_descriptions_covers_every_file
    (files_to_process : list string) (repo_path : string) (w : world) (file : string) :
  file ∈ files_to_process →
  let w' := snd (process_file_descriptions E files_to_process repo_path w) in
  has_entry E (Path_str E (relpath E file repo_path)) (context_summary w') = true
  ∨ Log ERROR ("Failed to generate description for " +:+ file) ∈ trace w'.
Proof.
  intros Hin. unfold process_file_descriptions.
  pose proof (describe_loop_outcome repo_path files_to_process [] w file Hin) as Hloop.
  destruct (fold_left (describe_step E repo_path) files_to_process ([], w))
    as [descriptions w1].
  simpl in Hloop. destruct descriptions; [done|].
  simpl. destruct Hloop as [?|?]; [by left | right; set_solver].
Qed.

End DescribeMore.

(** ** From the start of a run to the visit of the folders *)

Section RunStart.

Variable E : Env.
Variable a : run_args.

Lemma hash_changed_readable repo cache w f :
  hash_changed E repo cache w f = true → is_Some (fs w !! f).
Proof.
  unfold hash_changed, compute_sha256. by destruct (fs w !! f).
Qed.

(** With the assistant ready, the run comes to the visit of the folders
    with the changed files as its queue, all of them readable, and has
    reached no milestone yet. *)
Lemma run_reaches_dispatch (w : world) :
  assistant_ready E = true →
  ∃ w2,
    process_files_and_create_prs E a w
    = dispatch E a (check_git_repo E (repo_path a))
        (dispatch_order (traverse_repo E (repo_path a) (pr_depth a)))
        (changed_files E a w) w2
    ∧ milestones (trace w2) = milestones (trace w)
    ∧ Forall (λ f, is_Some (fs w2 !! f)) (changed_files E a w).
Proof.
  intros Hready. unfold process_files_and_create_prs.
  rewrite Hready. simpl.
  set (w0 := if check_git_repo E (repo_path a) then w else _).
  assert (fs w0 = fs w ∧ cache w0 = cache w
          ∧ milestones (trace w0) = milestones (trace w)) as (Hfs0 & Hc0 & Hm0).
  { subst w0. destruct (check_git_repo E (repo_path a)); [done|].
    simpl. rewrite milestones_app. simpl. by rewrite app_nil_r. }
  rewrite filter_files_by_hash_eq. rewrite Hc0.
  assert (List.filter (hash_changed E (repo_path a) (cache w) w0)
                      (python_files_sorted E (repo_path a))
          = changed_files E a w) as ->.
  { unfold changed_files. apply filter_ext. intros f.
    unfold hash_changed, compute_sha256. by rewrite Hfs0. }
  assert (Forall (λ f, is_Some (fs w !! f)) (changed_files E a w)) as Hread.
  { apply Forall_forall. intros f Hf.
    apply list_elem_of_In, filter_In in Hf as [_ Hf].
    by eapply hash_changed_readable. }
  set (w1 := add_trace _ w0).
  assert (milestones (trace w1) = milestones (trace w)) as Hm1.
  { subst w1. simpl. rewrite milestones_app, Hm0.
    assert (∀ files, milestones (unreadable_log E w0 files) = []) as Hlog.
    { induction files as [|f files IHf]; simpl; [done|].
      destruct (compute_sha256 E w0 f); simpl; done. }
    simpl. rewrite milestones_app, Hlog. simpl. by rewrite app_nil_r. }
  assert (fs w1 = fs w) as Hfs1 by (subst w1; simpl; exact Hfs0).
  clearbody w1.
  assert (∃ w2,
            match changed_files E a w with
            | [] => log INFO "No new file descriptions needed." w1
            | _ :: _ =>
                let '(description_file_ids, w) :=
                  process_file_descriptions E (changed_files E a w) (repo_path a) w1 in
                match description_file_ids with
                | [] => log WARNING "No descriptions were uploaded to OpenAI." w
                | _ :: _ => w
                end
            end = w2
            ∧ milestones (trace w2) = milestones (trace w)
            ∧ (∀ path, is_Some (fs w !! path) → is_Some (fs w2 !! path)))
    as (w2 & -> & Hm2 & Hdom2).
  { destruct (changed_files E a w) as [|f files] eqn:Hchanged.
    - eexists. split; [done|]. simpl. rewrite milestones_app, Hm1. simpl.
      rewrite app_nil_r. split; [done|]. by rewrite Hfs1.
    - unfold process_file_descriptions.
      pose proof (describe_loop_frame E (repo_path a) (f :: files) [] w1)
        as (_ & _ & Hdom & Hm & _ & _).
      destruct (fold_left (describe_step E (repo_path a)) (f :: files) ([], w1))
        as [descriptions w3].
      simpl in Hdom, Hm.
      assert (∀ path, is_Some (fs w !! path) → is_Some (fs w3 !! path)) as Hdom3.
      { intros path Hsome. apply Hdom. by rewrite Hfs1. }
      destruct descriptions as [|d descriptions].
      + eexists. split; [done|]. simpl. rewrite milestones_app, Hm, Hm1. simpl.
        by rewrite app_nil_r.
      + destruct (upload_files_to_openai E (d :: descriptions)).
        * eexists. split; [done|]. simpl. rewrite !milestones_app, Hm, Hm1. simpl.
          by rewrite !app_nil_r.
        * eexists. split; [done|]. simpl. rewrite !milestones_app, Hm, Hm1. simpl.
          by rewrite !app_nil_r. }
  exists w2. split; [done|]. split; [done|].
  eapply Forall_impl; [exact Hread|]. intros p Hp. by apply Hdom2.
Qed.

End RunStart.

(** ** What a whole run does *)

Section RunMore.

Variable E : Env.
Variable a : run_args.

Lemma handoff_annotated git_present folder w :
  annotated (trace (snd (handoff E a git_present folder w))) = annotated (trace w).
Proof.
  unfold handoff.
  destruct (github_token a) as [token|]; [|done].
  destruct (github_repo a) as [repo|]; [|done].
  destruct (_ && _ && _ && _); [|done].
  destruct (manual a), (prompt_user_confirmation E _); simpl;
    rewrite ?annotated_app; simpl; by rewrite ?app_nil_r.
Qed.

(** The files of a batch are offered in order, each at most once. *)
Lemma batch_loop_annotated files : ∀ w,
  ∃ offered,
    annotated (trace (fold_left (λ w f, process_single_file E f (repo_path a)
                                          (manual a) w) files w))
    = annotated (trace w) ++ offered
    ∧ offered `sublist_of` files.
Proof.
  induction files as [|f files IH]; intros w; cbn [fold_left].
  - exists []. by rewrite app_nil_r.
  - pose proof (process_single_file_frame E f (repo_path a) (manual a) w)
      as (_ & _ & events & Htrace & Hmile & _).
    destruct (IH (process_single_file E f (repo_path a) (manual a) w))
      as (offered & Heq & Hsub).
    simpl in Htrace.
    rewrite Heq, Htrace, annotated_app, (annotated_milestones events), Hmile.
    destruct (readable_text w f); simpl.
    + exists (f :: offered). rewrite <- app_assoc. split; [done|].
      by apply sublist_skip.
    + exists offered. rewrite app_nil_r. split; [done|]. by apply sublist_cons.
Qed.

Lemma process_batch_annotated git_present folder files w :
  ∃ offered,
    annotated (trace (snd (process_batch E a git_present folder files w)))
    = annotated (trace w) ++ offered
    ∧ offered `sublist_of` files.
Proof.
  unfold process_batch.
  destruct (batch_loop_annotated files w) as (offered & Heq & Hsub).
  exists offered. split; [|done].
  rewrite handoff_annotated. simpl. rewrite !annotated_app, Heq. simpl.
  by rewrite !app_nil_r.
Qed.

(** The visit of the folders offers files of the queue only, in the order
    of the queue, whether it ends or raises. *)
Lemma dispatch_annotated git_present order : ∀ queue w,
  ∃ offered,
    annotated (trace (snd (dispatch E a git_present order queue w)))
    = annotated (trace w) ++ offered
    ∧ offered `sublist_of` queue.
Proof.
  induction order as [|[depth folder] order IH]; intros queue w.
  - exists []. simpl. rewrite annotated_app. simpl. split; [done|].
    apply sublist_nil_l.
  - cbn [dispatch]. unfold process_folder. rewrite assign_folder_leading.
    pose proof (leading_behind (Path_str E) depth folder queue) as Hqueue.
    destruct (leading (Path_str E) depth folder queue) as [|f taken] eqn:Hbatch.
    + destruct (IH (behind (Path_str E) depth folder queue)
                   (log INFO ("No Python files found in folder '" +:+ folder
                              +:+ "'. Skipping.")
                      (log INFO ("Processing folder '" +:+ folder +:+ "'...") w)))
        as (offered & Heq & Hsub).
      exists offered. split.
      * rewrite Heq. simpl. rewrite !annotated_app. simpl. by rewrite !app_nil_r.
      * by rewrite <- Hqueue.
    + destruct (process_batch_annotated git_present folder (f :: taken)
                  (log INFO ("Processing folder '" +:+ folder +:+ "'...") w))
        as (offered1 & Heq1 & Hsub1).
      destruct (process_batch E a git_present folder (f :: taken) _) as [[e|] w1].
      * exists offered1. simpl in Heq1. simpl. split.
        -- rewrite Heq1, annotated_app. simpl. by rewrite app_nil_r.
        -- rewrite <- Hqueue. by apply sublist_inserts_r.
      * destruct (IH (behind (Path_str E) depth folder queue) w1)
          as (offered2 & Heq2 & Hsub2).
        exists (offered1 ++ offered2). simpl in Heq1. simpl. split.
        -- rewrite Heq2, Heq1, annotated_app. simpl.
           by rewrite app_nil_r, <- app_assoc.
        -- rewrite <- Hqueue. by apply sublist_app.
Qed.

(** X14. Whatever the settings, and whether the run ends or raises, the
    files a run offers to the assistant are changed files, in the order
    of the queue and each at most once: a file whose hash is the cached
    one is never offered. *)
Theorem run_offers_only_changed_files (w : world) :
  let w' := snd (process_files_and_create_prs E a w) in
  ∃ offered,
    annotated (trace w') = annotated (trace w) ++ offered
    ∧ offered `sublist_of` changed_files E a w.
Proof.
  destruct (assistant_ready E) eqn:Hready.
  - destruct (run_reaches_dispatch E a w Hready) as (w2 & Hrun & Hm2 & _).
    simpl. rewrite Hrun.
    destruct (dispatch_annotated (check_git_repo E (repo_path a))
                (dispatch_order (traverse_repo E (repo_path a) (pr_depth a)))
                (changed_files E a w) w2) as (offered & Heq & Hsub).
    exists offered. split; [|done].
    by rewrite Heq, (annotated_milestones (trace w2)), Hm2, <- annotated_milestones.
  - exists []. unfold process_files_and_create_prs. rewrite Hready. simpl.
    split; [|apply sublist_nil_l].
    destruct (check_git_repo E (repo_path a)); simpl;
      rewrite !annotated_app; simpl; by rewrite !app_nil_r.
Qed.




End RunMore.

(** ** Branch names and the body of a pull request *)

Section BranchNames.

Import Github.

Lemma sub_invalid_runs_valid s : ∀ in_run,
  PyStr.all_chars branch_char (sub_invalid_runs in_run s) = true.
Proof.
  induction s as [|c s IH]; intros in_run; simpl; [done|].
  destruct (branch_char c) eqn:Hc; simpl.
  - by rewrite Hc, IH.
  - destruct in_run; simpl; by rewrite ?IH.
Qed.

Lemma sub_invalid_runs_fixed s : ∀ in_run,
  PyStr.all_chars branch_char s = true → sub_invalid_runs in_run s = s.
Proof.
  induction s as [|c s IH]; intros in_run; simpl; [done|].
  intros [Hc Hs]%andb_true_iff. rewrite Hc. f_equal. by apply IH.
Qed.

Lemma sub_invalid_runs_length s : ∀ in_run,
  String.length (sub_invalid_runs in_run s) ≤ String.length s.
Proof.
  induction s as [|c s IH]; intros in_run; simpl; [done|].
  destruct (branch_char c); simpl.
  - specialize (IH false). lia.
  - specialize (IH true). destruct in_run; simpl; lia.
Qed.

Lemma replace_slash_cons c s :
  Py.replace "/" "-" (String c s)
  = String (if Ascii.eqb c "/" then "-"%char else c) (Py.replace "/" "-" s).
Proof.
  unfold Py.replace. cbn [Py.replace_from String.prefix].
  destruct (ascii_dec "/" c) as [<-|Hne].
  - assert (String.prefix "" s = true) as -> by (by destruct s). done.
  - destruct (Ascii.eqb_spec c "/") as [->|_]; [done|]. done.
Qed.

Lemma replace_slash_length s :
  String.length (Py.replace "/" "-" s) = String.length s.
Proof.
  induction s as [|c s IH]; [done|]. rewrite replace_slash_cons. simpl. by rewrite IH.
Qed.

Lemma replace_slash_fixed s :
  PyStr.all_chars branch_char s = true → Py.replace "/" "-" s = s.
Proof.
  induction s as [|c s IH]; [done|]. simpl.
  intros [Hc Hs]%andb_true_iff. rewrite replace_slash_cons, IH by done.
  destruct (Ascii.eqb_spec c "/") as [->|_]; [done|]. done.
Qed.

(** X16. [sanitize_branch_name] returns a name made of the characters
    [A-Za-z0-9_-] only, whatever it is given, and never a longer one. *)
Theorem sanitize_branch_name_is_valid (name : string) :
  PyStr.all_chars branch_char (sanitize_branch_name name) = true
  ∧ String.length (sanitize_branch_name name) ≤ String.length name.
Proof.
  unfold sanitize_branch_name. split; [apply sub_invalid_runs_valid|].
  etrans; [apply sub_invalid_runs_length|]. by rewrite replace_slash_length.
Qed.

(** X17. A name made of the characters [A-Za-z0-9_-] is left as it is, so
    sanitizing twice is the same as sanitizing once. *)
Theorem sanitize_branch_name_idempotent (name : string) :
  (PyStr.all_chars branch_char name = true → sanitize_branch_name name = name)
  ∧ sanitize_branch_name (sanitize_branch_name name) = sanitize_branch_name name.
Proof.
  assert (∀ s, PyStr.all_chars branch_char s = true → sanitize_branch_name s = s)
    as Hfixed.
  { intros s Hs. unfold sanitize_branch_name.
    rewrite replace_slash_fixed by done. by apply sub_invalid_runs_fixed. }
  split; [apply Hfixed|]. apply Hfixed.
  unfold sanitize_branch_name. apply sub_invalid_runs_valid.
Qed.

Lemma body_loop files : ∀ start,
  fold_left (λ pr_body file, pr_body +:+ "- `" +:+ file +:+ "`" +:+ PyStr.newline)
            files start
  = start +:+ body_lines files.
Proof.
  induction files as [|f files IH]; intros start; cbn [fold_left body_lines fold_right].
  - by rewrite append_empty_r.
  - rewrite IH. unfold body_line. fold (body_lines files).
    by rewrite !append_assoc.
Qed.

(** X18. The body of a pull request is the fixed header followed by one
    line [- `file`] per changed file, in order: every changed file is
    named in it, and with no changed file it is the header alone. *)
Theorem create_pull_request_body_lists_files (changed_files : list string) :
  create_pull_request_body changed_files = body_header +:+ body_lines changed_files
  ∧ create_pull_request_body [] = body_header
  ∧ ∀ before file after,
      changed_files = before ++ file :: after →
      create_pull_request_body changed_files
      = create_pull_request_body before +:+ body_line file +:+ body_lines after.
Proof.
  unfold create_pull_request_body. fold body_header. split_and!.
  - apply body_loop.
  - done.
  - intros before file after ->. rewrite fold_left_app. cbn [fold_left].
    rewrite (body_loop after). unfold body_line.
    by rewrite !append_assoc.
Qed.

End BranchNames.

(** ** Git commands *)

Section GitCommands.

Import Github.

Variable sys : system.

Lemma since_app (h new : list action) : since h (h ++ new) = new.
Proof. unfold since. by rewrite drop_app_length. Qed.

Lemma all_chars_append p s1 s2 :
  PyStr.all_chars p (s1 +:+ s2) = PyStr.all_chars p s1 && PyStr.all_chars p s2.
Proof.
  induction s1 as [|c s1 IH]; [done|]. rewrite append_cons. simpl.
  by rewrite IH, andb_assoc.
Qed.

Lemma split_from_pieces sep s : ∀ cur,
  PyStr.all_chars (λ c, negb (Ascii.eqb c sep)) cur = true →
  Forall (λ piece, PyStr.all_chars (λ c, negb (Ascii.eqb c sep)) piece = true)
         (PyStr.split_from sep cur s).
Proof.
  induction s as [|c s IH]; intros cur Hcur; simpl.
  - by constructor.
  - destruct (Ascii.eqb c sep) eqn:Hc.
    + constructor; [done | by apply IH].
    + apply IH. rewrite all_chars_append, Hcur. simpl. by rewrite Hc.
Qed.

(** Membership in a list that is written out. *)
Ltac in_list :=
  repeat first [ apply elem_of_cons; left; reflexivity
               | apply elem_of_cons; right ].

(** The next command: its result is arbitrary. *)
Ltac step_call :=
  match goal with
  | |- context [call ?s ?argv ?h] =>
      let code := fresh "code" in
      let out := fresh "out" in
      change (call s argv h)
        with (run s h argv, h ++ [Ran argv (returncode (run s h argv))]);
      generalize (run s h argv); intros [code out];
      cbn [returncode stdout negb fst snd]
  end.

(** Case analysis on the next return code the function tests. *)
Ltac step_code :=
  match goal with
  | |- context [Z.eqb ?code 0] =>
      destruct (Z.eqb_spec code 0) as [->|?]; cbn [negb fst snd]
  end.

(** X19. [get_staged_files] runs one command, [git diff --cached
    --name-only]. It never returns an empty name nor a name with a line
    break in it, and when the command fails it returns the empty list. *)
Theorem get_staged_files_names (repo_path : string) (h : list action) :
  let result := get_staged_files sys repo_path h in
  let argv := git repo_path ["diff"; "--cached"; "--name-only"] in
  Forall (λ file,
            file ≠ ""
            ∧ PyStr.all_chars (λ c, negb (Ascii.eqb c (ascii_of_nat 10))) file = true)
         (fst result)
  ∧ commands (since h (snd result)) = [argv]
  ∧ (returncode (run sys h argv) ≠ 0%Z → fst result = []).
Proof.
  unfold get_staged_files, call, logged. simpl.
  destruct (Z.eqb_spec (returncode (run sys h
              (git repo_path ["diff"; "--cached"; "--name-only"]))) 0) as [Hz|Hnz];
    simpl.
  - split_and!; [|by rewrite since_app|done].
    apply Forall_forall. intros file Hfile.
    apply list_elem_of_In, filter_In in Hfile as [Hin Htruthy].
    split; [by intros ->|].
    pose proof (split_from_pieces (ascii_of_nat 10)
                  (PyStr.strip (stdout (run sys h
                     (git repo_path ["diff"; "--cached"; "--name-only"])))) ""
                  eq_refl) as Hall.
    rewrite Forall_forall in Hall. apply Hall. by apply list_elem_of_In.
  - split_and!; [done| |done].
    rewrite <- app_assoc. by rewrite since_app.
Qed.

(** Where an action sits in a list that is written out; the positions
    that cannot hold it are discarded. *)
Ltac find_action Hin :=
  repeat (apply elem_of_cons in Hin as [Hin|Hin];
          [try discriminate; try (by simplify_eq); try congruence|]);
  try (by apply elem_of_nil in Hin).

(** X20. [commit_and_push_changes] runs its commands in a fixed order and
    stops at the first that fails: a command that returns a code other
    than 0 (the test for staged changes apart) is the last one run and
    makes the result [False], and the result is [False] in that way only.
    When the test finds nothing staged the function returns [True] after
    three commands, without a commit or a push; when it finds changes the
    commit is run, and the function returns [True] only after a commit
    and a push that both succeeded. *)
Theorem commit_and_push_changes_steps
    (repo_path branch_name message : string) (h : list action) :
  let result := commit_and_push_changes sys repo_path branch_name message h in
  let new := since h (snd result) in
  let steps := commit_steps repo_path branch_name message in
  let staged_test := git repo_path ["diff"; "--cached"; "--exit-code"] in
  commands new `prefix_of` steps
  ∧ (∀ argv code, Ran argv code ∈ new → code ≠ 0%Z → argv ≠ staged_test →
       fst result = false ∧ last (commands new) = Some argv)
  ∧ (∀ code, Ran staged_test code ∈ new → code ≠ 0%Z →
       git repo_path ["commit"; "-m"; message] ∈ commands new)
  ∧ (Ran staged_test 0 ∈ new → fst result = true ∧ commands new = take 3 steps)
  ∧ (fst result = true →
       Ran (git repo_path ["checkout"; "-B"; branch_name]) 0 ∈ new
       ∧ Ran (git repo_path ["add"; "."]) 0 ∈ new
       ∧ (Ran staged_test 0 ∈ new
          ∨ (Ran (git repo_path ["commit"; "-m"; message]) 0 ∈ new
             ∧ Ran (git repo_path ["push"; "-u"; "origin"; branch_name]) 0 ∈ new)))
  ∧ (fst result = false →
       ∃ argv code, Ran argv code ∈ new ∧ code ≠ 0%Z ∧ argv ≠ staged_test).
Proof.
  unfold commit_and_push_changes, commit_steps.
  repeat first [ step_code | step_call ].
  all: unfold logged; cbn [fst snd]; rewrite <- ?app_assoc; rewrite since_app; simpl.
  all: split_and!.
  all: try done.
  all: try match goal with |- prefix _ _ => by eexists end.
  all: try (intros argv code' Hin Hcode Hother; find_action Hin; simplify_eq;
            by split).
  all: try (intros code' Hin Hcode; find_action Hin; simplify_eq; in_list).
  all: try (intros Hin; find_action Hin; by split).
  all: try (intros Hresult; try discriminate; split_and!; try solve [in_list];
            first [ left; solve [in_list] | right; split; solve [in_list] ]).
  all: intros _.
  all: match goal with
       | Hcode : ?code ≠ 0%Z |- context [Ran ?argv ?code] =>
           solve [exists argv, code; split_and!; [in_list|exact Hcode|done]]
       end.
Qed.

(** ** Opening a pull request *)

Ltac step_found :=
  match goal with
  | |- context [get_repo ?s ?h ?token ?name] =>
      generalize (get_repo s h token name); intros [|]; cbn [negb fst snd]
  end.

Ltac step_staged :=
  match goal with
  | |- context [List.filter Py.truthy ?l] =>
      generalize (List.filter Py.truthy l); intros [|? ?]; cbn [negb fst snd]
  end.

Ltac step_pull :=
  match goal with
  | |- context [create_pull ?s ?h ?title ?body ?head ?base] =>
      generalize (create_pull s h title body head base); intros [?|];
      cbn [negb fst snd]
  end.

Ltac explore_pr :=
  unfold create_github_pr, unexpected_error, checkout_branch, has_unstaged_changes,
    get_staged_files, commit_and_push_changes;
  cbn zeta;
  repeat first [ step_found | step_code | step_call | step_staged | step_pull ];
  unfold logged; cbn [fst snd]; rewrite <- ?app_assoc; rewrite since_app; simpl.

(** X22. [create_github_pr] checks the branch it has just named out with
    [git checkout], without [-b]. When that command fails, which is what
    [git] answers for a branch that does not exist, the function returns
    [False] after three commands: the changes are staged and left on the
    branch the checkout was on, nothing is committed or pushed, no pull
    request is asked for and [target_branch] is not checked out. *)
Theorem create_github_pr_fresh_branch
    (args : pr_args) (h : list action) (code : Z) :
  let result := create_github_pr sys args h in
  let new := since h (snd result) in
  let repo_path := pr_repo_path args in
  let branch := full_branch_name sys args h in
  pr_target_branch args ≠ branch →
  Ran (git repo_path ["checkout"; branch]) code ∈ new →
  code ≠ 0%Z →
  fst result = false
  ∧ commands new
    = [git repo_path ["diff"; "--quiet"];
       git repo_path ["add"; "."];
       git repo_path ["checkout"; branch]]
  ∧ Ran (git repo_path ["add"; "."]) 0 ∈ new
  ∧ Forall (λ x, is_pull x = false) new
  ∧ last new
    = Some (Logged ERROR ("Failed to create or switch to branch '" +:+ branch
                          +:+ "'.")).
Proof.
  unfold full_branch_name, generate_unique_suffix.
  explore_pr.
  all: intros Htarget Hin Hcode; find_action Hin.
  all: split_and!; [done|done|in_list|by repeat constructor|done].
Qed.

(** X23. When [git diff --quiet] reports no change, [create_github_pr]
    returns [False] having run no other command and asked for no pull
    request. *)
Theorem create_github_pr_clean_tree (args : pr_args) (h : list action) :
  let result := create_github_pr sys args h in
  let new := since h (snd result) in
  let repo_path := pr_repo_path args in
  Ran (git repo_path ["diff"; "--quiet"]) 0 ∈ new →
  fst result = false
  ∧ commands new = [git repo_path ["diff"; "--quiet"]]
  ∧ Forall (λ x, is_pull x = false) new.
Proof.
  explore_pr.
  all: intros Hin; find_action Hin.
  all: split_and!; [done|done|by repeat constructor].
Qed.

(** X24. When the repository cannot be found on the service,
    [create_github_pr] returns [False]; the one command it runs is the
    checkout of [target_branch], and it asks for no pull request. *)
Theorem create_github_pr_unknown_repository
    (args : pr_args) (h : list action) (name : string) :
  let result := create_github_pr sys args h in
  let new := since h (snd result) in
  GotRepo name false ∈ new →
  fst result = false
  ∧ commands new = [git (pr_repo_path args) ["checkout"; pr_target_branch args]]
  ∧ Forall (λ x, is_pull x = false) new.
Proof.
  explore_pr.
  all: intros Hin; find_action Hin.
  all: split_and!; [done|done|by repeat constructor].
Qed.

End GitCommands.

(** ** The files of the repository *)

Section WalkFiles.

Import Files.

Lemma folder_induction (P : folder → Prop) :
  (∀ name files subfolders,
     Forall P subfolders → P (Folder name files subfolders)) →
  ∀ t, P t.
Proof.
  intros step. fix IH 1. intros [name files subfolders]. apply step.
  induction subfolders as [|d rest IHrest]; constructor; [apply IH | apply IHrest].
Qed.

Lemma visible_python_files (files : list string) :
  List.filter visible_python (List.map (pair []) files)
  = List.map (pair []) (List.filter is_python files).
Proof.
  induction files as [|file files IH]; [done|]. simpl.
  unfold visible_python at 1. simpl.
  destruct (is_python file); simpl; by rewrite IH.
Qed.

Lemma visible_python_below (d : string) (entries : list (list string * string)) :
  List.filter visible_python
    (List.map (λ entry, (d :: fst entry, snd entry)) entries)
  = if hidden d then []
    else List.map (λ entry, (d :: fst entry, snd entry))
           (List.filter visible_python entries).
Proof.
  induction entries as [|entry entries IH]; [by destruct (hidden d)|]. simpl.
  rewrite IH.
  assert (visible_python (d :: fst entry, snd entry)
          = negb (hidden d) && visible_python entry) as ->.
  { unfold visible_python. simpl. by rewrite andb_assoc. }
  destruct (hidden d); simpl; [done|].
  by destruct (visible_python entry).
Qed.

Lemma walk_python_visible (t : folder) : ∀ root,
  walk_python root t
  = List.map (full_path root) (List.filter visible_python (all_files t)).
Proof.
  induction t as [name files subfolders IH] using folder_induction.
  intros root. simpl.
  rewrite List.filter_app, List.map_app, visible_python_files, List.map_map.
  f_equal.
  induction IH as [|d rest Hd _ IHrest]; [done|]. simpl.
  rewrite List.filter_app, List.map_app, <- IHrest. f_equal.
  rewrite visible_python_below.
  destruct (hidden (folder_name d)); [done|].
  by rewrite Hd, !List.map_map.
Qed.

(** X26. [get_python_files] returns, in the order of the walk, exactly the
    files whose name ends in [.py] and none of whose directories below
    [repo_path] has a name that starts with a dot; the name of
    [repo_path] itself is not looked at. *)
Theorem get_python_files_visible
    (relpath : string → string → string) (repo_path : string) (tree : folder) :
  get_python_files relpath repo_path tree
  = List.map (λ entry, relpath (full_path repo_path entry) repo_path)
      (List.filter visible_python (all_files tree)).
Proof.
  unfold get_python_files. by rewrite walk_python_visible, List.map_map.
Qed.

End WalkFiles.

(** ** Uploads *)

Section UploadFiles.

Import Uploads.

Variable files_create : list string → string → option string.

Lemma upload_loop (file_paths : list string) : ∀ (file_ids : list string) (w : world),
  let result := fold_left (upload_step files_create) file_paths (file_ids, w) in
  ∃ new_ids failures,
    fst result = file_ids ++ new_ids
    ∧ trace (snd result)
      = trace w ++ List.map (λ path, Log ERROR ("Failed to upload " +:+ path)) failures
    ∧ length new_ids + length failures = length file_paths
    ∧ failures ⊆ file_paths
    ∧ fs (snd result) = fs w
    ∧ cache (snd result) = cache w
    ∧ context_summary (snd result) = context_summary w.
Proof.
  induction file_paths as [|path file_paths IH]; intros file_ids w; simpl.
  - exists [], []. simpl. by rewrite !app_nil_r.
  - destruct (files_create file_ids path) as [id|].
    + destruct (IH (file_ids ++ [id]) w) as (new_ids & failures & Hids & Htrace & Hlen & Hsub & Hrest).
      exists (id :: new_ids), failures. rewrite Hids, Htrace, <- app_assoc. simpl.
      split_and!; [done|done|lia|set_solver|apply Hrest..].
    + destruct (IH file_ids (log ERROR ("Failed to upload " +:+ path) w))
        as (new_ids & failures & Hids & Htrace & Hlen & Hsub & Hrest).
      exists new_ids, (path :: failures). rewrite Hids, Htrace. simpl.
      rewrite <- app_assoc. simpl.
      split_and!; [done|done|lia|set_solver|apply Hrest..].
Qed.

(** X27. [upload_files_to_openai] accounts for every path: each one
    either adds an identifier to the result or a line ["Failed to upload
    ..."] to the log, and nothing else changes. A failed upload does not
    stop the loop. *)
Theorem upload_files_to_openai_accounts (file_paths : list string) (w : world) :
  let result := upload_files_to_openai files_create file_paths w in
  ∃ failures,
    trace (snd result)
    = trace w ++ List.map (λ path, Log ERROR ("Failed to upload " +:+ path)) failures
    ∧ length (fst result) + length failures = length file_paths
    ∧ failures ⊆ file_paths
    ∧ fs (snd result) = fs w
    ∧ cache (snd result) = cache w
    ∧ context_summary (snd result) = context_summary w.
Proof.
  destruct (upload_loop file_paths [] w)
    as (new_ids & failures & Hids & Htrace & Hlen & Hsub & Hrest).
  exists failures. unfold upload_files_to_openai.
  simpl in *. rewrite Hids. destruct Hrest as (? & ? & ?).
  by split_and!.
Qed.

End UploadFiles.

(** ** The validation in [main] *)

Section MainMore.

Variable E : Env.

Lemma truthy_opt_from_opt (o : option string) :
  Py.truthy_opt o = true → from_opt o ≠ "".
Proof. by destruct o as [[|? ?]|]. Qed.

Lemma choose_github_repo_frame (args : cli) (w : world) :
  let w' := snd (choose_github_repo E args w) in
  fs w' = fs w ∧ cache w' = cache w ∧ context_summary w' = context_summary w.
Proof.
  unfold choose_github_repo, ask.
  destruct (git_remote E (arg_path args)) as [[user repo]|]; cbn.
  all: repeat (match goal with
               | |- context [if ?b then _ else _] => destruct b
               end; cbn).
  all: done.
Qed.

(** X28. [main] reaches the processing step only with settings that
    passed every test: the path exists, the API key, the branch name and
    the title of the pull requests are not empty, and either a
    repository was chosen and a token is there, or none was chosen and
    the user confirmed that the files may be edited in place. *)
Theorem main_validate_settings (args : cli) (w w' : world) (s : settings) :
  main_validate E args w = (inr s, w') →
  arg_help_flags args = false
  ∧ set_path s = arg_path args
  ∧ path_exists E (set_path s) = true
  ∧ set_api_key s ≠ ""
  ∧ set_branch_name s ≠ ""
  ∧ set_pr_name s ≠ ""
  ∧ (if Py.truthy_opt (set_github_repo s)
     then Py.truthy_opt (set_github_token s) = true
     else prompt_user_confirmation E "Do you wish to continue?" = true).
Proof.
  unfold main_validate.
  destruct (arg_help_flags args); [done|].
  destruct (if arg_no_cache args then handle_no_cache E args w else (None, w))
    as [[e|] w0]; [done|].
  unfold main_settle.
  destruct (Py.truthy_opt (Py.or_else _ _)) eqn:Hkey; [|done]. simpl.
  destruct (path_exists E (arg_path args)) eqn:Hpath; [|done]. simpl.
  destruct (choose_github_repo E args _) as [github_repo w1].
  assert (∀ (o : option string) (other : string),
            (if Py.truthy_opt o then from_opt o else other +:+ now_stamp E) ≠ ""
            ∨ other = "") as Hname.
  { intros o [|c other]; [by right|left].
    destruct (Py.truthy_opt o) eqn:Ho; [by apply truthy_opt_from_opt|done]. }
  destruct (Py.truthy_opt github_repo) eqn:Hrepo; simpl.
  - destruct (Py.truthy_opt (Py.or_else (arg_github_token args) _)) eqn:Htoken;
      [|done]. simpl.
    intros [= <- <-]. simpl. rewrite Hrepo.
    split_and!; try done.
    + by apply truthy_opt_from_opt.
    + by destruct (Hname (arg_branch_name args) "feature/docstring-updates-").
    + destruct (Py.truthy_opt (arg_pr_name args)) eqn:Ho;
        [by apply truthy_opt_from_opt|done].
  - destruct (prompt_user_confirmation E _) eqn:Hconfirmed; [|done].
    intros [= <- <-]. simpl. rewrite Hrepo.
    split_and!; try done.
    + by apply truthy_opt_from_opt.
    + by destruct (Hname (arg_branch_name args) "feature/docstring-updates-").
    + destruct (Py.truthy_opt (arg_pr_name args)) eqn:Ho;
        [by apply truthy_opt_from_opt|done].
Qed.

Lemma main_settle_frame (args : cli) (w : world) :
  let w' := snd (main_settle E args w) in
  fs w' = fs w ∧ cache w' = cache w ∧ context_summary w' = context_summary w.
Proof.
  unfold main_settle.
  destruct (negb (Py.truthy_opt _)); [done|].
  destruct (negb (path_exists E _)); [done|].
  pose proof (choose_github_repo_frame args w) as Hframe.
  destruct (choose_github_repo E args w) as [github_repo w1]. simpl in Hframe.
  destruct Hframe as (<- & <- & <-).
  destruct (negb (Py.truthy_opt github_repo)).
  - destruct (prompt_user_confirmation E _); [|done].
    by destruct (arg_manual args).
  - destruct (negb (Py.truthy_opt _)); [done|].
    by destruct (arg_manual args).
Qed.

(** X29. The files named by [--no-cache] are removed before anything is
    validated. Unless a removal raises, whatever the outcome of the
    validation, also when it ends with an error: the file of the cache
    and the file of the context summary are gone from the disk when they
    were there, what they held is empty, and no other file is changed.
    Without [--no-cache], or with [--help-flags], nothing is removed. *)
Theorem main_validate_no_cache (args : cli) (w : world) :
  let result := main_validate E args w in
  let w' := snd result in
  let cache_file := Posix.path_join (arg_path args) (CACHE_FILE_NAME E) in
  let context_summary_file :=
    Posix.path_join (arg_path args) (CONTEXT_SUMMARY_PATH E) in
  let reset := negb (arg_help_flags args) && arg_no_cache args in
  cache_file ≠ context_summary_file →
  (∀ path, fst result ≠ inl (Raised (OSError path))) →
  fs w'
  = (if reset && path_exists E context_summary_file
     then delete context_summary_file else id)
      ((if reset && path_exists E cache_file then delete cache_file else id) (fs w))
  ∧ cache w' = (if reset && path_exists E cache_file then ∅ else cache w)
  ∧ context_summary w'
    = (if reset && path_exists E context_summary_file then [] else context_summary w).
Proof.
  intros result w' cache_file context_summary_file reset Hdistinct Hremoved.
  subst result w' reset. unfold main_validate in *.
  destruct (arg_help_flags args); [done|]. cbn [negb andb].
  destruct (arg_no_cache args).
  2:{ simpl. apply main_settle_frame. }
  unfold handle_no_cache in *.
  fold cache_file context_summary_file in Hremoved |- *.
  assert (String.eqb context_summary_file cache_file = false) as Hne
    by (by apply String.eqb_neq).
  rewrite Hne, andb_false_r, andb_true_r in Hremoved |- *.
  destruct (path_exists E cache_file), (path_exists E context_summary_file);
    cbn [negb andb] in Hremoved |- *.
  all: repeat match goal with
         | |- context [os_remove E ?f] =>
             destruct (os_remove E f);
             [|exfalso; eapply Hremoved; reflexivity]
         end.
  all: cbn [fst snd] in Hremoved |- *.
  all: match goal with
       | |- context [main_settle E ?x ?w0] =>
           destruct (main_settle_frame x w0) as (-> & -> & ->)
       end.
  all: done.
Qed.

End MainMore.

(** ** Further instances *)

(** Membership in a list that evaluates to a written-out one. *)
Ltac in_computed := vm_compute; repeat constructor.


Lemma blocked_head_sends_queue_to_root_witness :
  assign_all Posix.Path_str [(1, "./pkg"); (0, ".")] ["a.py"; "pkg/b.py"]
  = inr ([Batch 1 "./pkg" []; Batch 0 "." ["a.py"; "pkg/b.py"]], []).
Proof.
  apply (blocked_head_sends_queue_to_root Posix.Path_str [(1, "./pkg")] "." "a.py"
           ["pkg/b.py"]).
  constructor; [reflexivity|constructor].
Defined.

Lemma applied_file_is_not_selected_again_witness :
  let E := Demo.env Demo.by_size in
  let result := approve_and_save_file E "# documented x = 1" Demo.a_py "a.py" "."
                  false Demo.start in
  fst result = true
  ∧ up_to_date E "." (snd result) "a.py" = true
  ∧ fst (filter_files_by_hash E ["a.py"] "." (cache (snd result)) (snd result)) = [].
Proof.
  split; [reflexivity|].
  apply (applied_file_is_not_selected_again (Demo.env Demo.by_size)
           "# documented x = 1" Demo.a_py "a.py" "." false Demo.start).
  reflexivity.
Defined.

Lemma process_file_descriptions_covers_every_file_witness :
  let E := Demo.env Demo.by_size in
  let w' := snd (process_file_descriptions E Demo.by_size "." Demo.start) in
  "pkg/b.py" ∈ Demo.by_size
  ∧ (has_entry E (Path_str E (relpath E "pkg/b.py" ".")) (context_summary w') = true
     ∨ Log ERROR ("Failed to generate description for " +:+ "pkg/b.py") ∈ trace w').
Proof.
  assert ("pkg/b.py" ∈ Demo.by_size) as Hfile by in_computed.
  split; [exact Hfile|].
  apply (process_file_descriptions_covers_every_file (Demo.env Demo.by_size)
           Path_str_idempotent Demo.by_size "." Demo.start "pkg/b.py" Hfile).
Defined.


Lemma create_github_pr_clean_tree_witness :
  let result := Github.create_github_pr Cases.clean Cases.pr [] in
  let new := Github.since [] (snd result) in
  Github.Ran (Github.git "." ["diff"; "--quiet"]) 0 ∈ new
  ∧ fst result = false
  ∧ Github.commands new = [Github.git "." ["diff"; "--quiet"]]
  ∧ Forall (λ x, Github.is_pull x = false) new.
Proof.
  assert (Github.Ran (Github.git "." ["diff"; "--quiet"]) 0
          ∈ Github.since [] (snd (Github.create_github_pr Cases.clean Cases.pr [])))
    as Hquiet by in_computed.
  split; [exact Hquiet|].
  apply (create_github_pr_clean_tree Cases.clean Cases.pr [] Hquiet).
Defined.

Lemma create_github_pr_unknown_repository_witness :
  let result := Github.create_github_pr Cases.unknown_repo Cases.pr [] in
  let new := Github.since [] (snd result) in
  Github.GotRepo "owner/repo" false ∈ new
  ∧ fst result = false
  ∧ Github.commands new = [Github.git "." ["checkout"; "main"]]
  ∧ Forall (λ x, Github.is_pull x = false) new.
Proof.
  assert (Github.GotRepo "owner/repo" false
          ∈ Github.since [] (snd (Github.create_github_pr Cases.unknown_repo
                                     Cases.pr [])))
    as Hrepo by in_computed.
  split; [exact Hrepo|].
  apply (create_github_pr_unknown_repository Cases.unknown_repo Cases.pr []
           "owner/repo" Hrepo).
Defined.

Lemma main_validate_settings_witness :
  let E := Demo.env Demo.by_size in
  let reached := main_validate E Demo.command_line Demo.start in
  let s := Settings "." "key" None None "feature/docstring-updates-20240101000000"
                    "-- Add docstrings for files in `.`" 1 false in
  reached = (inr s, snd reached)
  ∧ arg_help_flags Demo.command_line = false
  ∧ set_path s = arg_path Demo.command_line
  ∧ path_exists E (set_path s) = true
  ∧ set_api_key s ≠ ""
  ∧ set_branch_name s ≠ ""
  ∧ set_pr_name s ≠ ""
  ∧ (if Py.truthy_opt (set_github_repo s)
     then Py.truthy_opt (set_github_token s) = true
     else prompt_user_confirmation E "Do you wish to continue?" = true).
Proof.
  split; [reflexivity|].
  apply (main_validate_settings (Demo.env Demo.by_size) Demo.command_line Demo.start
           (snd (main_validate (Demo.env Demo.by_size) Demo.command_line Demo.start))).
  reflexivity.
Defined.

Lemma approve_and_save_file_applies_one_file_witness :
  let E := Demo.env Demo.by_size in
  let result := approve_and_save_file E "# documented x = 1" Demo.a_py "a.py" "."
                  false Demo.start in
  let w' := snd result in
  fst result = true
  ∧ ∃ content,
      ensure_docstring_header E (Py.replace "` ``" "```" "# documented x = 1")
      = Some content
      ∧ fs w' !! "a.py" = Some content
      ∧ cache w' !! relpath E "a.py" "." = Some (sha256 E content)
      ∧ List.filter is_write (trace w')
        = List.filter is_write (trace Demo.start)
            ++ [BackedUp "a.py"; Wrote "a.py" content]
      ∧ (∀ key, key ≠ relpath E "a.py" "." →
                cache w' !! key = cache Demo.start !! key)
      ∧ context_summary w' = context_summary Demo.start.
Proof.
  split; [reflexivity|].
  apply (approve_and_save_file_applies_one_file (Demo.env Demo.by_size)
           "# documented x = 1" Demo.a_py "a.py" "." false Demo.start).
  reflexivity.
Defined.

Lemma approve_and_save_file_failure_keeps_cache_witness :
  let E := Cases.full_disk (Demo.env Demo.by_size) in
  let result := approve_and_save_file E "# documented x = 1" Demo.a_py "a.py" "."
                  false Demo.settled in
  fst result = false
  ∧ fs (snd result) !! "a.py" = Some ""
  ∧ cache (snd result) = cache Demo.settled
  ∧ context_summary (snd result) = context_summary Demo.settled
  ∧ ∃ events,
      trace (snd result) = trace Demo.settled ++ events
      ∧ ((∀ remains, Wrote "a.py" remains ∉ events) →
         fs (snd result) !! "a.py" = fs Demo.settled !! "a.py")
      ∧ (∀ remains, Wrote "a.py" remains ∈ events →
         fs (snd result) !! "a.py" = Some remains ∧ BackedUp "a.py" ∈ events).
Proof.
  split; [reflexivity|]. split; [reflexivity|].
  apply (approve_and_save_file_failure_keeps_cache
           (Cases.full_disk (Demo.env Demo.by_size))
           "# documented x = 1" Demo.a_py "a.py" "." false Demo.settled).
  reflexivity.
Defined.

Lemma create_github_pr_fresh_branch_witness :
  let result := Github.create_github_pr Cases.dirty Cases.pr [] in
  let new := Github.since [] (snd result) in
  let branch := Github.full_branch_name Cases.dirty Cases.pr [] in
  branch = "feature-docs_pkg_01234567"
  ∧ Github.Ran (Github.git "." ["checkout"; branch]) 1 ∈ new
  ∧ fst result = false
  ∧ Github.commands new
    = [Github.git "." ["diff"; "--quiet"];
       Github.git "." ["add"; "."];
       Github.git "." ["checkout"; branch]]
  ∧ Github.Ran (Github.git "." ["add"; "."]) 0 ∈ new
  ∧ Forall (λ x, Github.is_pull x = false) new
  ∧ last new
    = Some (Github.Logged ERROR ("Failed to create or switch to branch '" +:+ branch
                                 +:+ "'.")).
Proof.
  assert (Github.Ran (Github.git "." ["checkout";
                                      Github.full_branch_name Cases.dirty Cases.pr []]) 1
          ∈ Github.since [] (snd (Github.create_github_pr Cases.dirty Cases.pr [])))
    as Hcheckout by in_computed.
  split; [reflexivity|]. split; [exact Hcheckout|].
  apply (create_github_pr_fresh_branch Cases.dirty Cases.pr [] 1).
  - by vm_compute.
  - exact Hcheckout.
  - done.
Defined.

Lemma main_validate_no_cache_witness :
  let E := Demo.env Demo.by_size in
  let result := main_validate E Cases.no_cache Cases.cached in
  fst result = inl (Exited 1)
  ∧ fs Cases.cached !! "./docstring_cache.json" = Some "{}"
  ∧ fs (snd result)
    = delete "./context_summary.json"
        (delete "./docstring_cache.json" (fs Cases.cached))
  ∧ cache (snd result) = ∅
  ∧ context_summary (snd result) = [].
Proof.
  split; [reflexivity|]. split; [reflexivity|].
  apply (main_validate_no_cache (Demo.env Demo.by_size) Cases.no_cache Cases.cached).
  - by vm_compute.
  - intros path. by vm_compute.
Defined.
